(** * analysis.py: descriptive statistics and rank-difference outliers

    A shallow embedding of [src/analysis.py] and of the pandas operations
    it calls, with the properties of the two functions
    [summary_statistics] and [extreme_rank_countries].

    Layout:
    - [pd]: the pandas operations used by the source (column selection,
      column assignment, [rank], [describe], [sort_values], [head]);
    - the effects of a call: the caller's DataFrame object, which
      [extreme_rank_countries] assigns into, the lines printed, and the
      exception raised, if any;
    - the two functions, line by line;
    - the properties.

    Numbers are exact rationals: the arithmetic of the source (counting,
    halves of integers, differences) is carried out without rounding.
    A missing value (NaN) is [None]. *)

From Stdlib Require Import QArith Qround Qreduction.
From stdpp Require Import gmap strings list sorting.

(** ** Rational numbers as column values *)

Definition Qltb (x y : Q) : bool := negb (Qle_bool y x).

Definition Qnat (n : nat) : Q := inject_Z (Z.of_nat n).

(** Number of elements of [l] on which [p] holds. *)
Fixpoint countb {A} (p : A → bool) (l : list A) : nat :=
  match l with
  | [] => 0
  | x :: l => (if p x then 1 else 0) + countb p l
  end.

(** A comparison [ltb] that sorting and ranking can rely on: a strict weak
    order, as [<] on numbers and on strings. *)
Record strict_weak {A} (ltb : A → A → bool) : Prop := {
  sw_asym x y : ltb x y = true → ltb y x = false;
  sw_negtrans x y z : ltb x y = false → ltb y z = false → ltb x z = false
}.

(** ** Exceptions and sorting algorithms *)

Inductive exn :=
  | ValueError (msg : string)
  | KeyError (labels : list string)
  | TypeError (msg : string).

(** [numpy.argsort]: the positions of [a] in ascending order of value.
    pandas sorts with [kind='quicksort'] unless told otherwise, and
    documents only [mergesort] and [stable] as stable, so nothing is known
    about the order in which equal values come out: an implementation is
    any function that returns a permutation of the positions along which
    the values ascend. *)
Record argsort_impl := {
  argsort : ∀ {A}, (A → A → bool) → list A → list nat;
  argsort_perm : ∀ A (ltb : A → A → bool) (a : list A),
    argsort ltb a ≡ₚ seq 0 (length a);
  argsort_sorted : ∀ A (ltb : A → A → bool) (a : list A),
    strict_weak ltb →
    StronglySorted
      (λ i j, ∀ x y, a !! i = Some x → a !! j = Some y → ltb y x = false)
      (argsort ltb a)
}.

(** Sorting the positions by insertion. [before_ties] says whether a
    position is put in front of the positions to its right that hold an
    equal value. *)
Definition goes_before {A} (before_ties : bool) (ltb : A → A → bool)
    (ox oy : option A) : bool :=
  match ox, oy with
  | Some x, Some y => if before_ties then negb (ltb y x) else ltb x y
  | None, _ => true
  | Some _, None => false
  end.

Fixpoint insert_pos {A} (before_ties : bool) (ltb : A → A → bool)
    (a : list A) (i : nat) (sorted : list nat) : list nat :=
  match sorted with
  | [] => [i]
  | j :: rest =>
      if goes_before before_ties ltb (a !! i) (a !! j)
      then i :: j :: rest
      else j :: insert_pos before_ties ltb a i rest
  end.

Definition insertion_argsort (before_ties : bool) {A} (ltb : A → A → bool)
    (a : list A) : list nat :=
  foldr (insert_pos before_ties ltb a) [] (seq 0 (length a)).

(** ** pandas *)

Module pd.

(** A column holds numbers (dtype float64 or int64) or Python objects
    (dtype object, here strings). *)
Inductive column :=
  | NumCol (vals : list (option Q))
  | StrCol (vals : list (option string)).

Definition col_length (c : column) : nat :=
  match c with NumCol v => length v | StrCol v => length v end.

Definition is_numeric (c : column) : bool :=
  match c with NumCol _ => true | StrCol _ => false end.

(** A DataFrame: the row labels and the labelled columns, in order.
    pandas allows a label to occur more than once. *)
Record DataFrame := mkDataFrame {
  index : list nat;
  data : list (string * column)
}.

(** [df.columns] *)
Definition columns (df : DataFrame) : list string := (data df).*1.

(** Every column has one value per row. *)
Definition wf (df : DataFrame) : Prop :=
  Forall (λ c, col_length c.2 = length (index df)) (data df).

(** What [df[key]] hands back for one label: a Series when the label
    names one column, and a DataFrame of all the columns it names when it
    names several. The source goes on with either. *)
Inductive selection :=
  | Series (c : column)
  | Frame (cols : list (string * column)).

(** [df[key]] for one label. *)
Definition getitem (df : DataFrame) (key : string) : exn + selection :=
  match filter (λ c, c.1 = key) (data df) with
  | [] => inl (KeyError [key])
  | [c] => inr (Series c.2)
  | cols => inr (Frame cols)
  end.

(** [df[keys]] for a list of labels: the columns in the order of
    [keys]; labels that are not columns raise. *)
Definition getitem_list (df : DataFrame) (keys : list string)
    : exn + DataFrame :=
  match filter (λ k, k ∉ columns df) keys with
  | [] =>
      inr {| index := index df;
             data := keys ≫= λ k, filter (λ c, c.1 = k) (data df) |}
  | missing => inl (KeyError missing)
  end.

(** [df[key] = value], the value being a Series on the index of [df]:
    an existing column is replaced where it stands (every column of that
    label, when there are several), a new one is added at the end. *)
Definition setitem (df : DataFrame) (key : string) (value : column)
    : DataFrame :=
  if bool_decide (key ∈ columns df)
  then {| index := index df;
          data := (λ c, if decide (c.1 = key) then (key, value) else c)
                    <$> data df |}
  else {| index := index df; data := data df ++ [(key, value)] |}.

(** The columns labelled [key] take the columns [new], one after the
    other. *)
Fixpoint replace_labelled (key : string) (new : list column)
    (cols : list (string * column)) : list (string * column) :=
  match cols with
  | [] => []
  | c :: cols =>
      if decide (c.1 = key)
      then match new with
           | v :: new => (key, v) :: replace_labelled key new cols
           | [] => c :: cols
           end
      else c :: replace_labelled key new cols
  end.

(** [df[key] = value], the value being a DataFrame: it must have as many
    columns as [df] has columns labelled [key], which take its columns
    in order; a new label can only take a DataFrame of one column. *)
Definition setitem_frame (df : DataFrame) (key : string)
    (value : list (string * column)) : exn + DataFrame :=
  match filter (λ c, c.1 = key) (data df), value with
  | [], [c] => inr (setitem df key c.2)
  | [], [] =>
      inl (ValueError
             ("Cannot set a DataFrame without columns to the column " +:+ key))
  | [], _ =>
      inl (ValueError
             ("Cannot set a DataFrame with multiple columns to the single column "
              +:+ key))
  | existing, _ =>
      if decide (length existing = length value)
      then inr {| index := index df;
                  data := replace_labelled key value.*2 (data df) |}
      else inl (ValueError "Columns must be same length as key")
  end.

(** [df[key] = value] for whatever the right-hand side evaluated to. *)
Definition setitem_selection (df : DataFrame) (key : string)
    (value : selection) : exn + DataFrame :=
  match value with
  | Series c => inr (setitem df key c)
  | Frame cols => setitem_frame df key cols
  end.

(** *** rank *)

(** The mean of the positions [g+1, ..., g+e]. *)
Definition mean_positions (g e : nat) : Q :=
  Qred (Qnat (sum_list (seq (S g) e)) / Qnat e).

Section rank.
Context {A : Type} (ltb : A → A → bool).

Definition tieb (x y : A) : bool := negb (ltb x y) && negb (ltb y x).

(** [Series.rank(ascending=False)], with the defaults
    [method='average'] and [na_option='keep']: a value that has [g]
    strictly greater values and is one of [e] equal values takes the
    positions [g+1 .. g+e] of the descending order with them, and
    each of them gets the mean of these positions; a missing value
    gets no rank. *)
Definition rank_descending (items : list (option A)) : list (option Q) :=
  let present := omap id items in
  (λ o : option A,
     (λ v, mean_positions (countb (ltb v) present)
                          (countb (tieb v) present)) <$> o) <$> items.
End rank.

Definition rank (c : column) : column :=
  match c with
  | NumCol v => NumCol (rank_descending Qltb v)
  | StrCol v => NumCol (rank_descending String.ltb v)
  end.

(** [.rank(ascending=False)] on what a selection handed back:
    [DataFrame.rank] ranks every column by itself. *)
Definition rank_selection (s : selection) : selection :=
  match s with
  | Series c => Series (rank c)
  | Frame cols => Frame (prod_map id rank <$> cols)
  end.

(** [a - b] on two Series with the same index: row by row, a missing
    operand giving a missing difference. *)
Definition sub_values (x y : list (option Q)) : list (option Q) :=
  zip_with (λ p q, match p, q with
                   | Some u, Some v => Some (Qred (u - v))
                   | _, _ => None
                   end) x y.

(** Some row holds a value in both operands. *)
Definition both_present {A B} (x : list (option A)) (y : list (option B))
    : bool :=
  existsb (λ p, match p with (Some _, Some _) => true | _ => false end)
          (zip x y).

(** The subtraction when an operand has dtype object: pandas subtracts
    on the rows where both operands are present and leaves the others
    missing. A string on such a row cannot be subtracted; without such a
    row the result is a column of dtype object that holds no value. The
    numbers are floats, as ranks are. *)
Definition sub_objects {A B} (left right : string) (x : list (option A))
    (y : list (option B)) : exn + column :=
  if both_present x y
  then inl (TypeError ("unsupported operand type(s) for -: '" +:+ left
                       +:+ "' and '" +:+ right +:+ "'"))
  else inr (StrCol (zip_with (λ _ _, None) x y)).

Definition sub (a b : column) : exn + column :=
  match a, b with
  | NumCol x, NumCol y => inr (NumCol (sub_values x y))
  | StrCol x, NumCol y => sub_objects "str" "float" x y
  | NumCol x, StrCol y => sub_objects "float" "str" x y
  | StrCol x, StrCol y => sub_objects "str" "str" x y
  end.

(** Two DataFrames with the same labels, column by column. *)
Fixpoint sub_columns (x y : list (string * column))
    : exn + list (string * column) :=
  match x, y with
  | (k, a) :: x, (_, b) :: y =>
      match sub a b with
      | inl e => inl e
      | inr c =>
          match sub_columns x y with
          | inl e => inl e
          | inr cols => inr ((k, c) :: cols)
          end
      end
  | _, _ => inr []
  end.

(** [a - b] on what two selections handed back. A DataFrame and a Series
    are aligned label by label, the columns of the one with the index of
    the other, which pandas refuses when a label is repeated, as it is
    in every DataFrame that a selection by one label hands back (the
    message is the one for a dataset that has rows). Two DataFrames with
    the same labels are subtracted column by column; with other labels
    every column of either comes out without values. (The order and the
    dtype that pandas gives these columns are not modelled: the
    assignment that follows in the source fails on their number.) *)
Definition sub_selection (a b : selection) : exn + selection :=
  match a, b with
  | Series x, Series y =>
      match sub x y with inl e => inl e | inr c => inr (Series c) end
  | Frame x, Frame y =>
      if decide (x.*1 = y.*1)
      then match sub_columns x y with
           | inl e => inl e
           | inr cols => inr (Frame cols)
           end
      else inr (Frame (prod_map id (λ c, NumCol (replicate (col_length c) None))
                         <$> x ++ y))
  | _, _ => inl (ValueError "cannot reindex on an axis with duplicate labels")
  end.

(** *** sort_values and head *)

Definition isna {A} (items : list (option A)) (i : nat) : bool :=
  match items !! i with Some None => true | _ => false end.

(** pandas' [nargsort] with [na_position='last']: the missing values
    are set aside, the others are sorted by [argsort], for a descending
    order on the reversed array with the result reversed again, and the
    positions of the missing values follow. *)
Definition nargsort (kind : argsort_impl) {A} (ltb : A → A → bool)
    (items : list (option A)) (ascending : bool) : list nat :=
  let idx := seq 0 (length items) in
  let nonnan := omap (λ i, v ← items !! i ≫= id; Some (i, v)) idx in
  let nan_idx := filter (λ i, isna items i) idx in
  let nonnan := if ascending then nonnan else reverse nonnan in
  let indexer :=
    omap (λ k, fst <$> nonnan !! k) (argsort kind ltb (nonnan.*2)) in
  (if ascending then indexer else reverse indexer) ++ nan_idx.

Definition take_col (c : column) (indexer : list nat) : column :=
  match c with
  | NumCol v => NumCol (omap (v !!.) indexer)
  | StrCol v => StrCol (omap (v !!.) indexer)
  end.

(** The rows at the given positions, in that order. *)
Definition take_rows (df : DataFrame) (indexer : list nat) : DataFrame :=
  {| index := omap (index df !!.) indexer;
     data := prod_map id (λ c, take_col c indexer) <$> data df |}.

(** [df.sort_values(by_, ascending=ascending)] for one label, with the
    default [kind='quicksort']. *)
Definition sort_values (quicksort : argsort_impl) (df : DataFrame)
    (by_ : string) (ascending : bool) : exn + DataFrame :=
  match getitem df by_ with
  | inl e => inl e
  | inr (Series (NumCol v)) =>
      inr (take_rows df (nargsort quicksort Qltb v ascending))
  | inr (Series (StrCol v)) =>
      inr (take_rows df (nargsort quicksort String.ltb v ascending))
  | inr (Frame _) =>
      inl (ValueError ("The column label '" +:+ by_ +:+ "' is not unique."))
  end.

Definition head_col (k : nat) (c : column) : column :=
  match c with NumCol v => NumCol (take k v) | StrCol v => StrCol (take k v) end.

(** [df.head(n)]: the first [n] rows, and for a negative [n] all rows but
    the last [-n]. *)
Definition head (df : DataFrame) (n : Z) : DataFrame :=
  let k := if (0 <=? n)%Z then Z.to_nat n
           else length (index df) - Z.to_nat (- n) in
  {| index := take k (index df);
     data := prod_map id (head_col k) <$> data df |}.

(** *** describe *)

(** A cell of a table of statistics: a number, the square root of a
    number (a standard deviation, kept exact), NaN, or an object. *)
Inductive stat :=
  | Num (q : Q)
  | Sqrt (q : Q)
  | NaN
  | Obj (s : string).

(** The DataFrame that [describe] returns: rows labelled by strings,
    cells that are statistics. *)
Record StatFrame := mkStatFrame {
  sindex : list string;
  sdata : list (string * list stat)
}.

Definition Qsum (l : list Q) : Q := foldr Qplus 0%Q l.

Fixpoint insert_sorted (x : Q) (l : list Q) : list Q :=
  match l with
  | [] => [x]
  | y :: l' => if Qle_bool x y then x :: l else y :: insert_sorted x l'
  end.

Definition sort_ascending (l : list Q) : list Q := foldr insert_sorted [] l.

(** [Series.quantile(p)], linear interpolation between the two nearest
    values. *)
Definition quantile (xs : list Q) (p : Q) : stat :=
  let s := sort_ascending xs in
  let h := (Qnat (length xs - 1) * p)%Q in
  let lo := Z.to_nat (Qfloor h) in
  match s !! lo, s !! S lo with
  | Some a, Some b => Num (Qred (a + (h - inject_Z (Qfloor h)) * (b - a)))
  | Some a, None => Num (Qred a)
  | None, _ => NaN
  end.

Definition numeric_measures : list string :=
  ["count"; "mean"; "std"; "min"; "25%"; "50%"; "75%"; "max"].

Definition object_measures : list string :=
  ["count"; "unique"; "top"; "freq"].

(** [Series.describe()] of a numeric column: the count of the values
    that are not missing, their mean, their sample standard deviation
    (denominator [count - 1]), minimum, quartiles and maximum. *)
Definition describe_numeric (v : list (option Q)) : list stat :=
  let xs := omap id v in
  let k := length xs in
  let s := sort_ascending xs in
  let mean := (Qsum xs / Qnat k)%Q in
  [ Num (Qnat k);
    if k is 0 then NaN else Num (Qred mean);
    if k <=? 1 then NaN
    else Sqrt (Qred (Qsum ((λ x, (x - mean) * (x - mean))%Q <$> xs)
                     / Qnat (k - 1)));
    from_option (λ x, Num (Qred x)) NaN (s !! 0);
    quantile xs (1 # 4);
    quantile xs (1 # 2);
    quantile xs (3 # 4);
    from_option (λ x, Num (Qred x)) NaN (last s) ].

(** [pandas.unique]: the distinct values in order of appearance. *)
Fixpoint unique (l : list string) : list string :=
  match l with
  | [] => []
  | x :: l => x :: filter (λ y, y ≠ x) (unique l)
  end.

(** [Series.value_counts()] before it is sorted. *)
Definition value_counts (xs : list string) : list (string * nat) :=
  (λ x, (x, countb (String.eqb x) xs)) <$> unique xs.

(** [Series.describe()] of an object column: count, number of distinct
    values, and the first entry of [value_counts()], which sorts the
    counts in descending order with the default sort. *)
Definition describe_object (quicksort : argsort_impl)
    (v : list (option string)) : list stat :=
  let xs := omap id v in
  let counts := value_counts xs in
  let order := nargsort quicksort Nat.ltb (Some <$> counts.*2) false in
  let first := order !! 0 ≫= (counts !!.) in
  [ Num (Qnat (length xs));
    Num (Qnat (length counts));
    from_option (λ c, Obj c.1) NaN first;
    from_option (λ c, Num (Qnat c.2)) NaN first ].

Definition describe_1d (quicksort : argsort_impl) (c : column) : list stat :=
  match c with
  | NumCol v => describe_numeric v
  | StrCol v => describe_object quicksort v
  end.

(** [df.describe()] with its defaults: a frame without columns is
    refused; when the frame has numeric columns only these are
    described; otherwise all (object) columns are. The result has one
    column per described column and one row per measure. *)
Definition describe (quicksort : argsort_impl) (df : DataFrame)
    : exn + StatFrame :=
  match data df with
  | [] => inl (ValueError "Cannot describe a DataFrame without columns")
  | _ =>
      match filter (λ c, is_numeric c.2) (data df) with
      | [] =>
          inr {| sindex := object_measures;
                 sdata := prod_map id (describe_1d quicksort) <$> data df |}
      | numeric =>
          inr {| sindex := numeric_measures;
                 sdata := prod_map id (describe_1d quicksort) <$> numeric |}
      end
  end.

(** [.T]: rows become columns and columns rows. *)
Definition T (t : StatFrame) : StatFrame :=
  {| sindex := (sdata t).*1;
     sdata := imap (λ i m, (m, (λ c, default NaN (c.2 !! i)) <$> sdata t))
                   (sindex t) |}.

End pd.

(** ** The effects of a call

    A call works on the DataFrame object the caller passes as [df] and on
    the standard output. An exception ends the call and leaves both as
    they are at that point. *)

Inductive line :=
  | Printed (msg : string) (arg : gset string).

Record World := mkWorld {
  caller_df : pd.DataFrame;
  stdout : list line
}.

Definition M (A : Type) : Type := World → (exn + A) * World.

#[global] Instance M_ret : MRet M := λ A x w, (inr x, w).

#[global] Instance M_bind : MBind M := λ A B f m w,
  match m w with
  | (inr x, w') => f x w'
  | (inl e, w') => (inl e, w')
  end.

Definition raise {A} (e : exn) : M A := λ w, (inl e, w).

(** The outcome of a pandas operation that has no effect of its own. *)
Definition lift {A} (r : exn + A) : M A := λ w, (r, w).

(** The object bound to the parameter [df]. *)
Definition read_df : M pd.DataFrame := λ w, (inr (caller_df w), w).

(** [df[key] = value] on the caller's object. *)
Definition assign_df (key : string) (value : pd.selection) : M () := λ w,
  match pd.setitem_selection (caller_df w) key value with
  | inl e => (inl e, w)
  | inr df => (inr (), {| caller_df := df; stdout := stdout w |})
  end.

Definition print (msg : string) (arg : gset string) : M () := λ w,
  (inr (), {| caller_df := caller_df w;
              stdout := stdout w ++ [Printed msg arg] |}).

(** ** analysis.py *)

(** The parameter [df] of the source is the caller's object of the state;
    [quicksort] is the routine behind pandas' default [kind='quicksort']. *)

Definition summary_statistics (quicksort : argsort_impl)
    (vars_of_interest : list string) : M pd.StatFrame :=
  df ← read_df;
  (* 31 *)
  let missing_vars : gset string :=
    list_to_set vars_of_interest ∖ list_to_set (pd.columns df) in
  (* 32-33 *)
  (if bool_decide (missing_vars ≠ ∅)
   then print "Warning: Missing columns:" missing_vars
   else mret ());;
  (* 34 *)
  let available_vars := filter (λ v, v ∈ pd.columns df) vars_of_interest in
  (* 35 *)
  selected ← lift (pd.getitem_list df available_vars);
  described ← lift (pd.describe quicksort selected);
  mret (pd.T described).

Definition extreme_rank_countries (quicksort : argsort_impl)
    (rank_col1 rank_col2 : string) (top_n : Z) : M pd.DataFrame :=
  df ← read_df;
  (* 72-73 *)
  if bool_decide (rank_col2 ∉ pd.columns df)
  then raise (ValueError (rank_col2 +:+ " not found in dataframe"))
  else
    (* 74 *)
    indicator ← lift (pd.getitem df rank_col2);
    assign_df "rank_col2_calc" (pd.rank_selection indicator);;
    (* 75: the selection is a new frame, and [.copy()] another *)
    df ← read_df;
    temp ← lift (pd.getitem_list df ["cname"; rank_col1; "rank_col2_calc"]);
    (* 76 *)
    lhs ← lift (pd.getitem temp rank_col1);
    rhs ← lift (pd.getitem temp "rank_col2_calc");
    difference ← lift (pd.sub_selection lhs rhs);
    temp ← lift (pd.setitem_selection temp "rank_difference" difference);
    (* 77 *)
    sorted ← lift (pd.sort_values quicksort temp "rank_difference" false);
    mret (pd.head sorted top_n).

(** ** Vocabulary of the properties *)

(** The error of line 73, which the specification calls [InvalidColumn]. *)
Definition InvalidColumn (column : string) : exn :=
  ValueError (column +:+ " not found in dataframe").

(** The requested names that are not columns of the dataset. *)
Definition absent_names (df : pd.DataFrame) (requested : list string)
    : gset string :=
  list_to_set (filter (λ v, v ∉ pd.columns df) requested).

(** The label names a numeric column of the frame. *)
Definition numeric_column (df : pd.DataFrame) (v : string) : bool :=
  match pd.getitem df v with
  | inr (pd.Series c) => pd.is_numeric c
  | _ => false
  end.

(** The ranks of a column without missing values. *)
Definition ranks_of (vals : list Q) : list Q :=
  (λ v, pd.mean_positions (countb (Qltb v) vals)
                          (countb (pd.tieb Qltb v) vals)) <$> vals.

(** Twice the number of greater values plus the number of equal values,
    the value itself included. *)
Definition weight {A} (ltb : A → A → bool) (l : list A) (v : A) : nat :=
  2 * countb (ltb v) l + countb (pd.tieb ltb v) l.


(** No two positions of [items] hold equal values. *)
Definition no_ties {A} (ltb : A → A → bool) (items : list (option A)) : Prop :=
  ∀ i j x y, items !! i = Some (Some x) → items !! j = Some (Some y) →
             ltb x y = false → ltb y x = false → i = j.

(** The dataset of the specification's example: countries A, B, C. *)
Definition example_df : pd.DataFrame :=
  {| pd.index := [0; 1; 2];
     pd.data :=
       [("cname", pd.StrCol [Some "A"; Some "B"; Some "C"]);
        ("rank1", pd.NumCol [Some 1; Some 2; Some 3]%Q);
        ("rank2", pd.NumCol [Some 30; Some 10; Some 20]%Q)] |}.

Definition example_world : World :=
  {| caller_df := example_df; stdout := [] |}.

(** The example with its indicator column named like the derived column. *)
Definition calc_df : pd.DataFrame :=
  {| pd.index := [0; 1; 2];
     pd.data :=
       [("cname", pd.StrCol [Some "A"; Some "B"; Some "C"]);
        ("rank1", pd.NumCol [Some 1; Some 2; Some 3]%Q);
        ("rank_col2_calc", pd.NumCol [Some 30; Some 10; Some 20]%Q)] |}.

(** The working table of lines 75 and 76: country names, given ranks,
    derived ranks and their differences, on the index of the dataset. *)
Definition working_table (df : pd.DataFrame) (names : pd.column)
    (rank_col1 : string) (given derived : list (option Q)) : pd.DataFrame :=
  pd.setitem
    {| pd.index := pd.index df;
       pd.data := [("cname", names); (rank_col1, pd.NumCol given);
                   ("rank_col2_calc", pd.NumCol derived)] |}
    "rank_difference" (pd.NumCol (pd.sub_values given derived)).

(** A sorting routine that keeps equal values in the order of their
    positions, as [kind='stable'] does. *)
Definition stable (kind : argsort_impl) : Prop :=
  ∀ A (ltb : A → A → bool) (a : list A),
    strict_weak ltb →
    StronglySorted
      (λ i j, ∀ x y, a !! i = Some x → a !! j = Some y →
                     ltb x y = false → i < j)
      (argsort kind ltb a).


(** Lines 75 to 77: they work on the dataset as line 74 leaves it and
    do not change it. *)
Definition lines_75_77 (quicksort : argsort_impl) (rank_col1 : string)
    (top_n : Z) (df : pd.DataFrame) : exn + pd.DataFrame :=
  match pd.getitem_list df ["cname"; rank_col1; "rank_col2_calc"] with
  | inl e => inl e
  | inr temp =>
      match pd.getitem temp rank_col1 with
      | inl e => inl e
      | inr lhs =>
          match pd.getitem temp "rank_col2_calc" with
          | inl e => inl e
          | inr rhs =>
              match pd.sub_selection lhs rhs with
              | inl e => inl e
              | inr difference =>
                  match pd.setitem_selection temp "rank_difference"
                          difference with
                  | inl e => inl e
                  | inr temp =>
                      match pd.sort_values quicksort temp "rank_difference"
                              false with
                      | inl e => inl e
                      | inr sorted => inr (pd.head sorted top_n)
                      end
                  end
              end
          end
      end
  end.

(** The number of rows that [head(n)] keeps of [rows] rows. *)
Definition head_count (n : Z) (rows : nat) : nat :=
  if (0 <=? n)%Z then Z.to_nat n `min` rows else rows - Z.to_nat (- n).


(** The example with an [income] column that holds words. *)
Definition words_df : pd.DataFrame :=
  {| pd.index := [0; 1; 2];
     pd.data :=
       [("cname", pd.StrCol [Some "A"; Some "B"; Some "C"]);
        ("income", pd.StrCol [Some "high"; Some "low"; None]);
        ("rank2", pd.NumCol [Some 30; Some 10; Some 20]%Q)] |}.

(** The example with a missing indicator value and equal given ranks. *)
Definition gaps_df : pd.DataFrame :=
  {| pd.index := [10; 11; 12; 13];
     pd.data :=
       [("cname", pd.StrCol [Some "A"; Some "B"; Some "C"; Some "D"]);
        ("rank1", pd.NumCol [Some 2; Some 2; Some 3; Some 4]%Q);
        ("rank2", pd.NumCol [Some 30; None; Some 20; Some 20]%Q)] |}.

(** * Properties *)

(** ** Orders *)

Lemma Qltb_lt (x y : Q) : Qltb x y = true ↔ (x < y)%Q.
Proof.
  unfold Qltb. rewrite negb_true_iff, <- not_true_iff_false, Qle_bool_iff.
  split; [apply Qnot_le_lt | apply Qlt_not_le].
Qed.

Lemma Qltb_ge (x y : Q) : Qltb x y = false ↔ (y <= x)%Q.
Proof. unfold Qltb. by rewrite negb_false_iff, Qle_bool_iff. Qed.

Lemma Qltb_strict_weak : strict_weak Qltb.
Proof.
  split.
  - intros x y. rewrite Qltb_lt, Qltb_ge. apply Qlt_le_weak.
  - intros x y z. rewrite !Qltb_ge. intros ??. by apply Qle_trans with y.
Qed.

(** ** Sorting by insertion meets the contract of [argsort] *)

Section insertion.
Context {A : Type} (before_ties : bool) (ltb : A → A → bool) (a : list A).

Let precedes (i j : nat) : Prop :=
  ∀ x y, a !! i = Some x → a !! j = Some y → ltb y x = false.

Lemma insert_pos_perm i sorted :
  insert_pos before_ties ltb a i sorted ≡ₚ i :: sorted.
Proof.
  induction sorted as [|j rest IH]; simpl; [done|].
  destruct (goes_before _ _ _ _); [done|].
  rewrite IH. apply Permutation_swap.
Qed.

Lemma insertion_argsort_perm :
  insertion_argsort before_ties ltb a ≡ₚ seq 0 (length a).
Proof.
  unfold insertion_argsort. induction (seq 0 (length a)) as [|i l IH]; simpl.
  - done.
  - by rewrite insert_pos_perm, IH.
Qed.

Lemma goes_before_precedes i j :
  strict_weak ltb →
  goes_before before_ties ltb (a !! i) (a !! j) = true → precedes i j.
Proof.
  intros Hsw Hgo x y Hx Hy. rewrite Hx, Hy in Hgo. simpl in Hgo.
  destruct before_ties.
  - by apply negb_true_iff.
  - by apply (sw_asym _ Hsw).
Qed.

Lemma goes_after_precedes i j :
  strict_weak ltb →
  goes_before before_ties ltb (a !! i) (a !! j) = false → precedes j i.
Proof.
  intros Hsw Hgo y x Hy Hx. rewrite Hx, Hy in Hgo. simpl in Hgo.
  destruct before_ties.
  - apply negb_false_iff in Hgo. by apply (sw_asym _ Hsw).
  - done.
Qed.

Lemma insert_pos_sorted i sorted :
  strict_weak ltb →
  StronglySorted precedes sorted →
  StronglySorted precedes (insert_pos before_ties ltb a i sorted).
Proof.
  intros Hsw. induction 1 as [|j rest Hrest IH Hj]; simpl.
  { repeat constructor. }
  destruct (goes_before _ _ _ _) eqn:Hgo.
  - constructor; [by constructor|]. constructor.
    + by apply goes_before_precedes.
    + destruct (a !! j) as [y|] eqn:Hy.
      * eapply Forall_impl; [exact Hj|]. intros k Hjk x z Hx Hz.
        apply (sw_negtrans _ Hsw z y x); [by eapply Hjk|].
        rewrite <- Hy in Hgo. by eapply (goes_before_precedes i j).
      * destruct (a !! i) as [x|] eqn:Hx; [done|].
        apply Forall_forall. intros k _ x z Hx'. congruence.
  - constructor; [done|].
    rewrite insert_pos_perm. constructor; [|done].
    by apply goes_after_precedes.
Qed.

Lemma insertion_argsort_sorted :
  strict_weak ltb →
  StronglySorted precedes (insertion_argsort before_ties ltb a).
Proof.
  intros Hsw. unfold insertion_argsort.
  induction (seq 0 (length a)) as [|i l IH]; simpl.
  - constructor.
  - by apply insert_pos_sorted.
Qed.
End insertion.

(** A stable implementation (ties keep their order), as [kind='stable']
    would be, and one that meets the contract and turns ties round. *)
Definition stable_sort : argsort_impl :=
  {| argsort := @insertion_argsort true;
     argsort_perm := λ A, @insertion_argsort_perm A true;
     argsort_sorted := λ A, @insertion_argsort_sorted A true |}.

Definition tie_reversing_sort : argsort_impl :=
  {| argsort := @insertion_argsort false;
     argsort_perm := λ A, @insertion_argsort_perm A false;
     argsort_sorted := λ A, @insertion_argsort_sorted A false |}.

(** ** Column lookup and assignment *)

Lemma getitem_error (df : pd.DataFrame) key e :
  pd.getitem df key = inl e → e = KeyError [key].
Proof.
  unfold pd.getitem. destruct (filter _ _) as [|c [|c' l]]; naive_solver.
Qed.


Lemma sub_error a b e : pd.sub a b = inl e → ∃ msg, e = TypeError msg.
Proof.
  destruct a, b; simpl; unfold pd.sub_objects; repeat case_match; naive_solver.
Qed.

Lemma filter_label_setitem_ne (l : list (string * pd.column)) key k v :
  key ≠ k →
  filter (λ c, c.1 = key)
    ((λ c : string * pd.column, if decide (c.1 = k) then (k, v) else c) <$> l)
  = filter (λ c, c.1 = key) l.
Proof.
  intros Hne. induction l as [|[k' c] l IH]; [done|].
  rewrite fmap_cons, !filter_cons, IH. simpl.
  destruct (decide (k' = k)) as [->|]; simpl; [|done].
  by rewrite !decide_False by done.
Qed.

Lemma getitem_setitem_ne (df : pd.DataFrame) key k v :
  key ≠ k → pd.getitem (pd.setitem df k v) key = pd.getitem df key.
Proof.
  intros Hne. unfold pd.getitem, pd.setitem. case_bool_decide; simpl.
  - by rewrite filter_label_setitem_ne.
  - rewrite filter_app, filter_cons_False, filter_nil, app_nil_r; naive_solver.
Qed.

Lemma index_setitem (df : pd.DataFrame) k v :
  pd.index (pd.setitem df k v) = pd.index df.
Proof. unfold pd.setitem. by case_bool_decide. Qed.

(** ** Running the two functions *)

Ltac unfold_call :=
  unfold summary_statistics, extreme_rank_countries, mbind, M_bind, mret,
    M_ret, read_df, assign_df, print, raise, lift; simpl.

Lemma extreme_rank_countries_absent quicksort rank_col1 rank_col2 top_n w :
  rank_col2 ∉ pd.columns (caller_df w) →
  extreme_rank_countries quicksort rank_col1 rank_col2 top_n w
  = (inl (InvalidColumn rank_col2), w).
Proof. intros Habsent. unfold_call. by rewrite bool_decide_true. Qed.

(** C10: when [rank_col2] is absent the call fails at the presence check,
    before any other step: the outcome is the error of line 73 and the
    caller's dataset, like the standard output, is exactly as before. *)
Theorem C10_absent_column_fails_first quicksort rank_col1 rank_col2 top_n w :
  rank_col2 ∉ pd.columns (caller_df w) →
  extreme_rank_countries quicksort rank_col1 rank_col2 top_n w
  = (inl (InvalidColumn rank_col2), w).
Proof. apply extreme_rank_countries_absent. Qed.

Lemma C10_absent_column_fails_first_witness :
  ("rank3" ∉ pd.columns (caller_df example_world))
  ∧ extreme_rank_countries stable_sort "rank1" "rank3" 2 example_world
    = (inl (InvalidColumn "rank3"), example_world).
Proof.
  assert ("rank3" ∉ pd.columns (caller_df example_world)) as Habsent.
  { apply (bool_decide_unpack _). by vm_compute. }
  split; [exact Habsent|].
  exact (C10_absent_column_fails_first stable_sort "rank1" "rank3" 2
           example_world Habsent).
Defined.

(** ** The caller's dataset and the standard output *)

Lemma missing_vars_absent_names (df : pd.DataFrame) (requested : list string) :
  list_to_set requested ∖ list_to_set (pd.columns df)
  = absent_names df requested.
Proof.
  unfold absent_names. apply set_eq. intros v.
  rewrite elem_of_difference, !elem_of_list_to_set, list_elem_of_filter.
  tauto.
Qed.

Lemma absent_names_empty (df : pd.DataFrame) (requested : list string) :
  absent_names df requested = ∅
  ↔ Forall (λ v, v ∈ pd.columns df) requested.
Proof.
  unfold absent_names. rewrite Forall_forall. split.
  - intros Hempty v Hv. destruct (decide (v ∈ pd.columns df)); [done|].
    assert (v ∈@{gset string}
              list_to_set (filter (λ v, v ∉ pd.columns df) requested)) as Hin
      by by apply elem_of_list_to_set, list_elem_of_filter.
    rewrite Hempty in Hin. by apply not_elem_of_empty in Hin.
  - intros Hall. apply elem_of_equiv_empty_L. intros v.
    rewrite elem_of_list_to_set, list_elem_of_filter.
    intros [Hnot Hin]. by apply Hnot, Hall.
Qed.

Lemma filter_nil_Forall {A} (P : A → Prop) `{∀ x, Decision (P x)} (l : list A) :
  Forall (λ x, ¬ P x) l → filter P l = [].
Proof.
  induction 1 as [|x l Hx _ IH]; [done|]. by rewrite filter_cons_False.
Qed.

Lemma summary_statistics_df quicksort vars_of_interest w :
  caller_df (summary_statistics quicksort vars_of_interest w).2 = caller_df w.
Proof. unfold_call. repeat case_match; by simplify_eq/=. Qed.

(** The dataset after a call: what the assignment of line 74 made of
    it, when the call got there and the assignment went through. *)
Lemma extreme_rank_countries_df quicksort rank_col1 rank_col2 top_n w :
  caller_df (extreme_rank_countries quicksort rank_col1 rank_col2 top_n w).2
  = match pd.getitem (caller_df w) rank_col2 with
    | inr indicator =>
        match pd.setitem_selection (caller_df w) "rank_col2_calc"
                (pd.rank_selection indicator) with
        | inr df => df
        | inl _ => caller_df w
        end
    | inl _ => caller_df w
    end.
Proof.
  unfold_call. case_bool_decide as Habsent; simpl.
  - unfold pd.getitem.
    rewrite filter_nil_Forall; [done|].
    apply Forall_forall. intros [k c] Hin Heq. simpl in Heq. subst k.
    apply Habsent.
    unfold pd.columns. apply list_elem_of_fmap. by exists (rank_col2, c).
  - destruct (pd.getitem _ _); simpl; [done|].
    destruct (pd.setitem_selection _ _ _); simpl; [done|]. by repeat case_match.
Qed.

(** Nothing to describe: when no requested name is a column, line 35
    calls [describe] on a frame without columns, which raises. *)
Lemma summary_statistics_nothing_present quicksort vars_of_interest w :
  Forall (λ v, v ∉ pd.columns (caller_df w)) vars_of_interest →
  (summary_statistics quicksort vars_of_interest w).1
  = inl (ValueError "Cannot describe a DataFrame without columns").
Proof.
  intros Hnone. unfold_call.
  unfold pd.getitem_list.
  rewrite (filter_nil_Forall (λ v, v ∈ pd.columns (caller_df w))).
  - simpl. by case_bool_decide.
  - eapply Forall_impl; [exact Hnone|]. naive_solver.
Qed.

(** C4 on the code: with the columns [cname, rank1, rank2] and the one
    requested name [z], the call prints the warning and then raises
    [ValueError] instead of returning an empty table. *)
Theorem C4_all_absent_raises quicksort :
  (summary_statistics quicksort ["z"] example_world).1
    = inl (ValueError "Cannot describe a DataFrame without columns")
  ∧ stdout (summary_statistics quicksort ["z"] example_world).2
    = [Printed "Warning: Missing columns:" {["z"]}].
Proof.
  split.
  - apply summary_statistics_nothing_present.
    apply Forall_singleton. apply (bool_decide_unpack _). by vm_compute.
  - vm_compute. reflexivity.
Qed.

(** C8: a call of [summary_statistics] adds to the standard output one
    warning, which lists the set of all absent names, when a requested
    column is absent, and nothing when all requested columns are present;
    it never prints one warning per absent column. *)
Theorem C8_one_warning_per_call quicksort vars_of_interest w :
  stdout (summary_statistics quicksort vars_of_interest w).2
  = stdout w ++
    if bool_decide (Forall (λ v, v ∈ pd.columns (caller_df w)) vars_of_interest)
    then []
    else [Printed "Warning: Missing columns:"
            (absent_names (caller_df w) vars_of_interest)].
Proof.
  unfold_call. rewrite missing_vars_absent_names.
  case_bool_decide as Hmissing; case_bool_decide as Hall; simpl.
  - by apply absent_names_empty in Hall.
  - by repeat case_match.
  - rewrite app_nil_r. by repeat case_match.
  - by apply absent_names_empty in Hmissing.
Qed.

Lemma summary_statistics_outcome quicksort vars_of_interest (w1 w2 : World) :
  caller_df w1 = caller_df w2 →
  (summary_statistics quicksort vars_of_interest w1).1
  = (summary_statistics quicksort vars_of_interest w2).1.
Proof.
  destruct w1 as [df out1], w2 as [df2 out2]. simpl. intros <-. unfold_call.
  repeat case_match; simplify_eq/=; done.
Qed.

(** ** Ranking *)

Lemma countb_app {A} (p : A → bool) (l1 l2 : list A) :
  countb p (l1 ++ l2) = countb p l1 + countb p l2.
Proof. induction l1 as [|x l1 IH]; simpl; [done|]. rewrite IH. lia. Qed.

Lemma countb_ext {A} (p q : A → bool) (l : list A) :
  (∀ x, p x = q x) → countb p l = countb q l.
Proof. intros Hpq. induction l as [|x l IH]; simpl; [done|]. by rewrite Hpq, IH. Qed.

Lemma countb_none {A} (p : A → bool) (l : list A) :
  Forall (λ x, p x = false) l → countb p l = 0.
Proof. induction 1 as [|x l Hx _ IH]; simpl; [done|]. by rewrite Hx, IH. Qed.

Lemma countb_elem_of {A} (p : A → bool) (l : list A) x :
  x ∈ l → p x = true → 0 < countb p l.
Proof.
  induction 1 as [x l|x y l _ IH]; simpl; intros Hp.
  - rewrite Hp. lia.
  - specialize (IH Hp). lia.
Qed.

Lemma countb_all {A} (p : A → bool) (l : list A) :
  Forall (λ x, p x = true) l → countb p l = length l.
Proof. induction 1 as [|x l Hx _ IH]; simpl; [done|]. by rewrite Hx, IH. Qed.

Lemma countb_either {A} (p q : A → bool) (l : list A) :
  Forall (λ x, Nat.b2n (p x) + Nat.b2n (q x) = 1) l →
  countb p l + countb q l = length l.
Proof.
  induction 1 as [|x l Hx _ IH]; simpl; [done|].
  destruct (p x), (q x); simpl in *; lia.
Qed.

Lemma countb_disjoint {A} (p q : A → bool) (l : list A) :
  (∀ x, p x = true → q x = false) → countb p l + countb q l ≤ length l.
Proof.
  intros Hpq. induction l as [|x l IH]; simpl; [done|].
  destruct (p x) eqn:Hp; [rewrite (Hpq x Hp)|destruct (q x)]; simpl; lia.
Qed.

Lemma countb_Permutation {A} (p : A → bool) (l1 l2 : list A) :
  l1 ≡ₚ l2 → countb p l1 = countb p l2.
Proof. induction 1; simpl; lia. Qed.

Lemma omap_id_fmap_Some {A} (l : list A) : omap id (Some <$> l) = l.
Proof. induction l as [|x l IH]; [done|]. rewrite fmap_cons. simpl. by f_equal. Qed.

Lemma sum_list_cons (x : nat) (l : list nat) : sum_list (x :: l) = x + sum_list l.
Proof. done. Qed.

(** Twice the sum of the positions [g+1 .. g+e]. *)
Lemma sum_positions g e : 2 * sum_list (seq (S g) e) = e * (2 * g + e + 1).
Proof.
  revert g. induction e as [|e IH]; intros g; simpl; [done|].
  specialize (IH (S g)). simpl in IH. nia.
Qed.

Lemma Qnat_add m n : (Qnat (m + n) == Qnat m + Qnat n)%Q.
Proof. unfold Qnat. by rewrite Nat2Z.inj_add, inject_Z_plus. Qed.

Lemma Qnat_mul m n : (Qnat (m * n) == Qnat m * Qnat n)%Q.
Proof. unfold Qnat. by rewrite Nat2Z.inj_mul, inject_Z_mult. Qed.

(** The mean of the positions [g+1 .. g+e] is [g + (e+1)/2]. *)
Lemma mean_positions_double g e :
  0 < e → (2 * pd.mean_positions g e == Qnat (2 * g + e + 1))%Q.
Proof.
  intros He. unfold pd.mean_positions. rewrite Qred_correct.
  assert (¬ (Qnat e == 0)%Q) as Hne.
  { unfold Qnat, Qeq. simpl. lia. }
  assert (2 * Qnat (sum_list (seq (S g) e))
          == Qnat e * Qnat (2 * g + e + 1))%Q as Hsum.
  { rewrite <- Qnat_mul, <- sum_positions, Qnat_mul. reflexivity. }
  field_simplify_eq; [|done]. rewrite Hsum. ring.
Qed.

Section pairs.
Context {A : Type} (ltb : A → A → bool).
Hypothesis ltb_asym : ∀ x y, ltb x y = true → ltb y x = false.

Lemma tieb_refl x : pd.tieb ltb x x = true.
Proof.
  unfold pd.tieb. destruct (ltb x x) eqn:Hx; [|done].
  by rewrite (ltb_asym _ _ Hx) in Hx.
Qed.

Lemma weight_cons a l v :
  weight ltb (a :: l) v = weight ltb l v + (2 * Nat.b2n (ltb v a) + Nat.b2n (pd.tieb ltb v a)).
Proof. unfold weight. simpl. repeat case_match; simpl; lia. Qed.

(** Of two values, one is greater, or the other, or they are equal. *)
Lemma weight_cross a l :
  weight ltb l a
  + sum_list ((λ v, 2 * Nat.b2n (ltb v a) + Nat.b2n (pd.tieb ltb v a)) <$> l)
  = 2 * length l.
Proof.
  induction l as [|x l IH]; [done|].
  rewrite weight_cons, fmap_cons, sum_list_cons. simpl length.
  assert (2 * Nat.b2n (ltb a x) + Nat.b2n (pd.tieb ltb a x)
          + (2 * Nat.b2n (ltb x a) + Nat.b2n (pd.tieb ltb x a)) = 2) as Hpair.
  { unfold pd.tieb.
    destruct (ltb a x) eqn:Hax, (ltb x a) eqn:Hxa; try done.
    by rewrite (ltb_asym _ _ Hax) in Hxa. }
  lia.
Qed.

Lemma sum_weight_cons a m l :
  sum_list (weight ltb (a :: m) <$> l)
  = sum_list (weight ltb m <$> l)
    + sum_list ((λ v, 2 * Nat.b2n (ltb v a) + Nat.b2n (pd.tieb ltb v a)) <$> l).
Proof.
  induction l as [|x l IH]; [done|].
  rewrite !fmap_cons, !sum_list_cons, IH, weight_cons. lia.
Qed.

(** Over all values, the weights add up to the number of pairs. *)
Lemma sum_weight l : sum_list (weight ltb l <$> l) = length l * length l.
Proof.
  induction l as [|a l IH]; [done|].
  rewrite fmap_cons, sum_list_cons, sum_weight_cons, IH.
  rewrite weight_cons, tieb_refl.
  pose proof (weight_cross a l) as Hcross.
  destruct (ltb a a) eqn:Haa; [by rewrite (ltb_asym _ _ Haa) in Haa|].
  simpl Nat.b2n.
  simpl length. lia.
Qed.
End pairs.

Lemma rank_present (vals : list Q) :
  pd.rank (pd.NumCol (Some <$> vals)) = pd.NumCol (Some <$> ranks_of vals).
Proof.
  unfold pd.rank, pd.rank_descending, ranks_of.
  rewrite omap_id_fmap_Some, <- !list_fmap_compose. done.
Qed.

Lemma Qltb_Qeq_l (v u x : Q) : (v == u)%Q → Qltb v x = Qltb u x.
Proof.
  intros Heq. apply eq_true_iff_eq. rewrite !Qltb_lt. by rewrite Heq.
Qed.

Lemma Qltb_Qeq_r (v u x : Q) : (v == u)%Q → Qltb x v = Qltb x u.
Proof.
  intros Heq. apply eq_true_iff_eq. rewrite !Qltb_lt. by rewrite Heq.
Qed.

Lemma tieb_Qeq_bool (v x : Q) : pd.tieb Qltb v x = Qeq_bool v x.
Proof.
  apply eq_true_iff_eq. unfold pd.tieb.
  rewrite andb_true_iff, !negb_true_iff, !Qltb_ge, Qeq_bool_iff. split.
  - intros [??]. by apply Qle_antisym.
  - intros ->. split; apply Qle_refl.
Qed.

Lemma rank_of_strict_maximum (l1 l2 : list Q) (v : Q) :
  Forall (λ u, (u < v)%Q) l1 → Forall (λ u, (u < v)%Q) l2 →
  countb (Qltb v) (l1 ++ v :: l2) = 0
  ∧ countb (pd.tieb Qltb v) (l1 ++ v :: l2) = 1.
Proof.
  intros H1 H2.
  assert (∀ l, Forall (λ u, (u < v)%Q) l →
               countb (Qltb v) l = 0 ∧ countb (pd.tieb Qltb v) l = 0) as Hsmall.
  { intros l Hl. split; apply countb_none; eapply Forall_impl; try exact Hl;
      simpl; intros u Hu.
    - apply Qltb_ge. by apply Qlt_le_weak.
    - unfold pd.tieb. apply andb_false_iff. right.
      apply negb_false_iff. by apply Qltb_lt. }
  destruct (Hsmall l1 H1) as [Hg1 He1], (Hsmall l2 H2) as [Hg2 He2].
  rewrite !countb_app. simpl.
  rewrite Hg1, Hg2, He1, He2, (tieb_refl Qltb (sw_asym _ Qltb_strict_weak)).
  assert (Qltb v v = false) as -> by (apply Qltb_ge, Qle_refl). done.
Qed.

(** In a descending arrangement of the values, those equal to [v] stand
    at the positions that follow the [g] greater values: the positions
    [g+1 .. g+e] when counted from 1. *)
Lemma descending_positions (sorted : list Q) (v : Q) k x :
  StronglySorted (λ a b, (b <= a)%Q) sorted →
  sorted !! k = Some x →
  (x == v)%Q
  ↔ countb (Qltb v) sorted ≤ k
    ∧ k < countb (Qltb v) sorted + countb (pd.tieb Qltb v) sorted.
Proof.
  intros Hsorted Hk.
  pose proof (lookup_lt_Some _ _ _ Hk) as Hlt.
  rewrite <- (take_drop_middle sorted k x Hk) in Hsorted |- *.
  apply StronglySorted_app in Hsorted as (Hbefore & _ & Hafter).
  apply StronglySorted_cons in Hafter as [Hafter _].
  assert (Forall (λ a, (x <= a)%Q) (take k sorted)) as Hge.
  { apply Forall_forall. intros a Ha. apply Hbefore; [done|left]. }
  clear Hbefore.
  set (before := take k sorted) in *. set (after := drop (S k) sorted) in *.
  assert (length before = k) as Hlen by (unfold before; rewrite length_take; lia).
  rewrite !countb_app. simpl.
  pose proof (countb_disjoint (Qltb v) (pd.tieb Qltb v) before) as Hdisjoint.
  destruct (Qlt_le_dec v x) as [Hvx|Hxv]; [|destruct (Qlt_le_dec x v) as [Hxv'|Hvx]].
  - assert (countb (Qltb v) before = k) as ->.
    { rewrite <- Hlen. apply countb_all. eapply Forall_impl; [exact Hge|].
      simpl. intros a Ha. apply Qltb_lt. by apply Qlt_le_trans with x. }
    rewrite (proj2 (Qltb_lt v x) Hvx). simpl. split; [|lia].
    intros Heq. rewrite Heq in Hvx. by apply Qlt_irrefl in Hvx.
  - assert (countb (Qltb v) after = 0 ∧ countb (pd.tieb Qltb v) after = 0)
      as [-> ->].
    { split; apply countb_none; (eapply Forall_impl; [exact Hafter|]);
        simpl; intros b Hb.
      - apply Qltb_ge. apply Qle_trans with x; [done|by apply Qlt_le_weak].
      - unfold pd.tieb. apply andb_false_iff. right. apply negb_false_iff.
        apply Qltb_lt. by apply Qle_lt_trans with x. }
    assert (Qltb v x = false) as -> by (apply Qltb_ge; by apply Qlt_le_weak).
    assert (pd.tieb Qltb v x = false) as ->.
    { unfold pd.tieb. apply andb_false_iff. right. apply negb_false_iff.
      by apply Qltb_lt. }
    simpl. split; [|specialize (Hdisjoint ltac:(
      intros a Ha; unfold pd.tieb; by rewrite Ha)); lia].
    intros Heq. rewrite Heq in Hxv'. by apply Qlt_irrefl in Hxv'.
  - assert (x == v)%Q as Heq by by apply Qle_antisym.
    assert (countb (Qltb v) before + countb (pd.tieb Qltb v) before = k) as Hk'.
    { rewrite <- Hlen. apply countb_either. eapply Forall_impl; [exact Hge|].
      simpl. intros a Ha. unfold pd.tieb.
      assert (Qltb a v = false) as ->
        by (apply Qltb_ge; by apply Qle_trans with x).
      by destruct (Qltb v a). }
    assert (countb (Qltb v) after = 0) as ->.
    { apply countb_none. eapply Forall_impl; [exact Hafter|].
      simpl. intros b Hb. apply Qltb_ge. by apply Qle_trans with x. }
    assert (Qltb v x = false) as -> by by apply Qltb_ge.
    assert (pd.tieb Qltb v x = true) as ->.
    { rewrite tieb_Qeq_bool. apply Qeq_bool_iff. by symmetry. }
    simpl. split; [lia|done].
Qed.

Lemma Qsum_ranks_double (vals l : list Q) :
  l ⊆ vals →
  (2 * pd.Qsum ((λ v, pd.mean_positions (countb (Qltb v) vals)
                                       (countb (pd.tieb Qltb v) vals)) <$> l)
   == Qnat (sum_list (weight Qltb vals <$> l) + length l))%Q.
Proof.
  induction l as [|v l IH]; intros Hsub.
  - reflexivity.
  - rewrite !fmap_cons, sum_list_cons. simpl pd.Qsum. simpl length.
    rewrite Qmult_plus_distr_r, IH by set_solver.
    rewrite mean_positions_double.
    + rewrite <- Qnat_add. unfold weight. f_equiv. lia.
    + apply countb_elem_of with v; [set_solver|].
      apply (tieb_refl Qltb (sw_asym _ Qltb_strict_weak)).
Qed.

(** The ranks of [n] values add up to [n (n + 1) / 2]. *)
Lemma Qsum_ranks (vals : list Q) :
  (pd.Qsum (ranks_of vals)
   == Qnat (length vals) * (Qnat (length vals) + 1) / 2)%Q.
Proof.
  pose proof (Qsum_ranks_double vals vals) as Hdouble.
  rewrite (sum_weight Qltb (sw_asym _ Qltb_strict_weak)) in Hdouble.
  rewrite Qnat_add, Qnat_mul in Hdouble. fold (ranks_of vals) in Hdouble.
  specialize (Hdouble (reflexivity _)).
  field_simplify_eq. rewrite Hdouble. ring.
Qed.

Lemma omap_id_fmap_fmap {A B} (f : A → B) (l : list (option A)) :
  omap id (fmap f <$> l) = f <$> omap id l.
Proof.
  induction l as [|[x|] l IH]; csimpl; [done|by f_equal|done].
Qed.

(** The ranks that are not missing are the ranks of the values that are
    not missing. *)
Lemma rank_descending_present (items : list (option Q)) :
  omap id (pd.rank_descending Qltb items) = ranks_of (omap id items).
Proof. unfold pd.rank_descending. by rewrite omap_id_fmap_fmap. Qed.

Lemma rank_descending_lookup (items : list (option Q)) i :
  pd.rank_descending Qltb items !! i
  = fmap (λ v, pd.mean_positions (countb (Qltb v) (omap id items))
                                 (countb (pd.tieb Qltb v) (omap id items)))
      <$> items !! i.
Proof. unfold pd.rank_descending. by rewrite list_lookup_fmap. Qed.

(** C6, as the code has it: the rank that [extreme_rank_countries]
    derives from a numeric column [rank_col2] is a fractional ranking, in
    descending order, of the values of the column that are not missing.
    The column assigned at line 74 has one entry per row; a missing value
    has no rank; a value greater than every other gets rank 1; equal
    values get the same rank; a value with [g] greater and [e] equal
    values (itself included) stands with its equals at the positions
    [g+1 .. g+e] of every descending arrangement of the values, and its
    rank is the mean of these positions; over the [m] values that are
    not missing the ranks add up to [m (m + 1) / 2], which is
    [n (n + 1) / 2] for the [n] rows only when no value is missing. *)
Theorem C6_derived_rank_is_fractional quicksort rank_col1 rank_col2 top_n w
    (items : list (option Q)) :
  pd.getitem (caller_df w) rank_col2 = inr (pd.Series (pd.NumCol items)) →
  let present := omap id items in
  ∃ derived : list (option Q),
    caller_df (extreme_rank_countries quicksort rank_col1 rank_col2 top_n w).2
    = pd.setitem (caller_df w) "rank_col2_calc" (pd.NumCol derived)
    ∧ length derived = length items
    ∧ (∀ i, items !! i = Some None → derived !! i = Some None)
    ∧ (∀ i v, items !! i = Some (Some v) →
              (∀ j u, j ≠ i → items !! j = Some (Some u) → (u < v)%Q) →
              derived !! i = Some (Some 1%Q))
    ∧ (∀ i j v u, items !! i = Some (Some v) → items !! j = Some (Some u) →
                  (v == u)%Q → derived !! i = derived !! j)
    ∧ (∀ i v, items !! i = Some (Some v) →
              ∃ g e,
                g = countb (Qltb v) present ∧ e = countb (Qeq_bool v) present
                ∧ derived !! i = Some (Some (pd.mean_positions g e))
                ∧ ∀ sorted k x,
                    sorted ≡ₚ present →
                    StronglySorted (λ a b, (b <= a)%Q) sorted →
                    sorted !! k = Some x →
                    ((x == v)%Q ↔ g ≤ k ∧ k < g + e))
    ∧ (pd.Qsum (omap id derived)
       == Qnat (length present) * (Qnat (length present) + 1) / 2)%Q
    ∧ (Forall is_Some items → length present = length items).
Proof.
  intros Hcol present. exists (pd.rank_descending Qltb items).
  split; [by rewrite extreme_rank_countries_df, Hcol|].
  split; [unfold pd.rank_descending; apply length_fmap|].
  assert (∀ i v, items !! i = Some (Some v) →
            pd.rank_descending Qltb items !! i
            = Some (Some (pd.mean_positions (countb (Qltb v) present)
                                            (countb (pd.tieb Qltb v) present))))
    as Hrank.
  { intros i v Hi. by rewrite rank_descending_lookup, Hi. }
  split; [|split; [|split; [|split; [|split]]]].
  - intros i Hi. by rewrite rank_descending_lookup, Hi.
  - intros i v Hi Hmax. rewrite (Hrank i v Hi).
    unfold present. rewrite <- (take_drop_middle items i (Some v) Hi).
    rewrite omap_app. csimpl.
    destruct (rank_of_strict_maximum (omap id (take i items))
                (omap id (drop (S i) items)) v) as [-> ->]; [| |done].
    + apply Forall_forall. intros u (o & Ho & Hu)%list_elem_of_omap.
      simpl in Hu. subst o. apply list_elem_of_lookup_1 in Ho as [j Hj].
      apply lookup_take_Some in Hj as [Hj Hlt]. apply (Hmax j); [lia|done].
    + apply Forall_forall. intros u (o & Ho & Hu)%list_elem_of_omap.
      simpl in Hu. subst o. apply list_elem_of_lookup_1 in Ho as [j Hj].
      rewrite lookup_drop in Hj. apply (Hmax (S i + j)); [lia|done].
  - intros i j v u Hi Hj Heq. rewrite (Hrank i v Hi), (Hrank j u Hj).
    do 3 f_equal; apply countb_ext; intros x.
    + by apply Qltb_Qeq_l.
    + unfold pd.tieb. by rewrite (Qltb_Qeq_l v u x), (Qltb_Qeq_r v u x).
  - intros i v Hi.
    assert (countb (pd.tieb Qltb v) present = countb (Qeq_bool v) present)
      as Htie.
    { apply countb_ext. intros x. apply tieb_Qeq_bool. }
    exists (countb (Qltb v) present), (countb (Qeq_bool v) present).
    split; [done|]. split; [done|].
    split; [by rewrite (Hrank i v Hi), Htie|].
    intros sorted k x Hperm Hsorted Hk.
    rewrite <- Htie, <- !(countb_Permutation _ _ _ Hperm).
    by apply descending_positions.
  - rewrite rank_descending_present. apply Qsum_ranks.
  - intros Hall. unfold present. clear Hcol Hrank.
    induction Hall as [|o l [v ->] _ IH]; [done|]. csimpl. by f_equal.
Qed.

Lemma C6_derived_rank_is_fractional_witness :
  pd.getitem example_df "rank2"
    = inr (pd.Series (pd.NumCol [Some 30; Some 10; Some 20]%Q))
  ∧ ∃ derived : list (option Q),
      caller_df
        (extreme_rank_countries stable_sort "rank1" "rank2" 2 example_world).2
      = pd.setitem example_df "rank_col2_calc" (pd.NumCol derived)
      ∧ length derived = 3
      ∧ (pd.Qsum (omap id derived) == 6)%Q.
Proof.
  split; [reflexivity|].
  destruct (C6_derived_rank_is_fractional stable_sort "rank1" "rank2" 2
              example_world [Some 30; Some 10; Some 20]%Q eq_refl)
    as (derived & Hdf & Hlen & _ & _ & _ & _ & Hsum & _).
  exists derived. split; [exact Hdf|]. split; [exact Hlen|].
  rewrite Hsum. reflexivity.
Defined.

(** C6 as stated fails on a column with a missing value: of the four
    rows of the indicator [30, NaN, 20, 20] three get a rank, and the
    ranks [1, NaN, 2.5, 2.5] add up to 6, not to [4 (4 + 1) / 2 = 10]. *)
Lemma C6_missing_value_has_no_rank :
  let outcome :=
    extreme_rank_countries stable_sort "rank1" "rank2" 2
      {| caller_df := gaps_df; stdout := [] |} in
  pd.getitem gaps_df "rank2"
    = inr (pd.Series (pd.NumCol [Some 30; None; Some 20; Some 20]%Q))
  ∧ length (pd.index gaps_df) = 4
  ∧ pd.getitem (caller_df outcome.2) "rank_col2_calc"
    = inr (pd.Series (pd.NumCol [Some 1; None; Some (5 # 2); Some (5 # 2)]%Q))
  ∧ (pd.Qsum [1; 5 # 2; 5 # 2] == 6)%Q
  ∧ ¬ (pd.Qsum [1; 5 # 2; 5 # 2] == Qnat 4 * (Qnat 4 + 1) / 2)%Q.
Proof.
  repeat split; try (vm_compute; reflexivity).
  vm_compute. discriminate.
Qed.

(** ** Frames with distinct labels *)

Lemma getitem_inr_filter (df : pd.DataFrame) key c :
  pd.getitem df key = inr (pd.Series c) →
  filter (λ x, x.1 = key) (pd.data df) = [(key, c)].
Proof.
  unfold pd.getitem.
  destruct (filter _ _) as [|[k c'] [|]] eqn:Hfilter; try done.
  intros [= <-]. f_equal.
  assert ((k, c') ∈ filter (λ x, x.1 = key) (pd.data df)) as Hin
    by (rewrite Hfilter; left).
  apply list_elem_of_filter in Hin as [Hk _]. simpl in Hk. by subst.
Qed.

Lemma filter_label_NoDup (l : list (string * pd.column)) key c :
  NoDup l.*1 → (key, c) ∈ l → filter (λ x, x.1 = key) l = [(key, c)].
Proof.
  induction l as [|[k c'] l IH]; intros Hnodup Hin.
  { by apply elem_of_nil in Hin. }
  rewrite fmap_cons in Hnodup. apply NoDup_cons in Hnodup as [Hk Hnodup].
  apply elem_of_cons in Hin as [[= <- <-]|Hin].
  - rewrite filter_cons_True by done. f_equal.
    apply filter_nil_Forall, Forall_forall. intros [k' c''] Hin' Heq.
    simpl in *. subst k'. apply Hk, list_elem_of_fmap. by exists (key, c'').
  - rewrite filter_cons_False; [by apply IH|].
    simpl. intros ->. apply Hk, list_elem_of_fmap. by exists (key, c).
Qed.

Lemma getitem_elem_of (df : pd.DataFrame) key c :
  NoDup (pd.columns df) → (key, c) ∈ pd.data df → pd.getitem df key = inr (pd.Series c).
Proof.
  intros Hnodup Hin. unfold pd.getitem. by erewrite filter_label_NoDup.
Qed.

Lemma getitem_present (df : pd.DataFrame) key :
  NoDup (pd.columns df) → key ∈ pd.columns df →
  ∃ c, (key, c) ∈ pd.data df ∧ pd.getitem df key = inr (pd.Series c).
Proof.
  intros Hnodup Hin. apply list_elem_of_fmap in Hin as ([k c] & -> & Hin).
  exists c. split; [done|]. by apply getitem_elem_of.
Qed.

Lemma getitem_inr_elem_of (df : pd.DataFrame) key c :
  pd.getitem df key = inr (pd.Series c) → (key, c) ∈ pd.data df.
Proof.
  intros Hget%getitem_inr_filter.
  assert ((key, c) ∈ filter (λ x, x.1 = key) (pd.data df)) as Hin
    by (rewrite Hget; left).
  by apply list_elem_of_filter in Hin as [_ ?].
Qed.

Lemma columns_setitem (df : pd.DataFrame) key v :
  pd.columns (pd.setitem df key v)
  = if bool_decide (key ∈ pd.columns df) then pd.columns df
    else pd.columns df ++ [key].
Proof.
  unfold pd.setitem, pd.columns. case_bool_decide; simpl.
  - rewrite <- list_fmap_compose. apply list_fmap_ext. intros i [k c] _.
    simpl. by case_decide; simplify_eq/=.
  - by rewrite fmap_app.
Qed.

Lemma NoDup_columns_setitem (df : pd.DataFrame) key v :
  NoDup (pd.columns df) → NoDup (pd.columns (pd.setitem df key v)).
Proof.
  intros Hnodup. rewrite columns_setitem. case_bool_decide; [done|].
  apply NoDup_app. split; [done|]. split; [|apply NoDup_singleton].
  intros k Hk ->%list_elem_of_singleton. done.
Qed.

Lemma getitem_setitem_eq (df : pd.DataFrame) key v :
  NoDup (pd.columns df) → pd.getitem (pd.setitem df key v) key = inr (pd.Series v).
Proof.
  intros Hnodup. apply getitem_elem_of; [by apply NoDup_columns_setitem|].
  unfold pd.setitem. case_bool_decide as Hin; simpl.
  - apply list_elem_of_fmap in Hin as ([k c] & -> & Hin).
    apply list_elem_of_fmap. exists (k, c). by rewrite decide_True.
  - apply elem_of_app. right. left.
Qed.

Lemma wf_setitem (df : pd.DataFrame) key v :
  pd.wf df → pd.col_length v = length (pd.index df) →
  pd.wf (pd.setitem df key v).
Proof.
  unfold pd.wf, pd.setitem. intros Hwf Hv. case_bool_decide; simpl.
  - apply Forall_fmap. eapply Forall_impl; [exact Hwf|].
    intros [k c] Hc. simpl. by case_decide.
  - apply Forall_app. split; [done|]. by constructor.
Qed.

Lemma getitem_list_three (df : pd.DataFrame) k1 k2 k3 c1 c2 c3 :
  pd.getitem df k1 = inr (pd.Series c1) → pd.getitem df k2 = inr (pd.Series c2) →
  pd.getitem df k3 = inr (pd.Series c3) →
  pd.getitem_list df [k1; k2; k3]
  = inr {| pd.index := pd.index df;
           pd.data := [(k1, c1); (k2, c2); (k3, c3)] |}.
Proof.
  intros H1 H2 H3. unfold pd.getitem_list.
  rewrite filter_nil_Forall.
  - simpl. by rewrite (getitem_inr_filter _ _ _ H1),
      (getitem_inr_filter _ _ _ H2), (getitem_inr_filter _ _ _ H3).
  - repeat constructor; intros Hnot; apply Hnot, list_elem_of_fmap;
      eexists (_, _); (split; [done|]); by eapply getitem_inr_elem_of.
Qed.

Lemma filter_label_prod_map (f : pd.column → pd.column)
    (l : list (string * pd.column)) key :
  filter (λ x, x.1 = key) (prod_map id f <$> l)
  = prod_map id f <$> filter (λ x, x.1 = key) l.
Proof.
  induction l as [|[k c] l IH]; [done|].
  rewrite fmap_cons, !filter_cons, IH. simpl. by case_decide.
Qed.

Lemma getitem_take_rows (df : pd.DataFrame) key c indexer :
  pd.getitem df key = inr (pd.Series c) →
  pd.getitem (pd.take_rows df indexer) key = inr (pd.Series (pd.take_col c indexer)).
Proof.
  intros Hget%getitem_inr_filter. unfold pd.getitem, pd.take_rows. simpl.
  by rewrite filter_label_prod_map, Hget.
Qed.

Lemma getitem_head (df : pd.DataFrame) key c n :
  pd.getitem df key = inr (pd.Series c) →
  ∃ k, pd.getitem (pd.head df n) key = inr (pd.Series (pd.head_col k c))
       ∧ pd.index (pd.head df n) = take k (pd.index df)
       ∧ (0 <= n → k = Z.to_nat n)%Z.
Proof.
  intros Hget%getitem_inr_filter. unfold pd.getitem, pd.head. simpl.
  eexists. rewrite filter_label_prod_map, Hget. simpl.
  split; [done|]. split; [done|]. intros Hn. by rewrite (Zle_imp_le_bool _ _ Hn).
Qed.

(** ** Selections of several columns *)

(** A call, statement by statement: the check, the selection and the
    assignment of line 74, and the rest, which works on the dataset that
    line 74 leaves. *)
Lemma extreme_rank_countries_run quicksort rank_col1 rank_col2 top_n w :
  extreme_rank_countries quicksort rank_col1 rank_col2 top_n w
  = if bool_decide (rank_col2 ∉ pd.columns (caller_df w))
    then (inl (InvalidColumn rank_col2), w)
    else
      match pd.getitem (caller_df w) rank_col2 with
      | inl e => (inl e, w)
      | inr indicator =>
          match pd.setitem_selection (caller_df w) "rank_col2_calc"
                  (pd.rank_selection indicator) with
          | inl e => (inl e, w)
          | inr df =>
              (lines_75_77 quicksort rank_col1 top_n df,
               {| caller_df := df; stdout := stdout w |})
          end
      end.
Proof.
  unfold_call. case_bool_decide; simpl; [done|].
  destruct (pd.getitem _ _); simpl; [done|].
  destruct (pd.setitem_selection _ _ _); simpl; [done|].
  unfold lines_75_77. by repeat case_match.
Qed.

Lemma getitem_Frame (df : pd.DataFrame) key cols :
  pd.getitem df key = inr (pd.Frame cols) →
  cols = filter (λ c, c.1 = key) (pd.data df) ∧ 2 ≤ length cols.
Proof.
  unfold pd.getitem.
  destruct (filter _ _) as [|c [|c' l]]; intros [= <-]. simpl. split; [done|lia].
Qed.

Lemma filter_label_nil (l : list (string * pd.column)) key :
  filter (λ c, c.1 = key) l = [] → key ∉ l.*1.
Proof.
  intros Hnil ([k c] & Hk & Hin)%list_elem_of_fmap. simpl in Hk. subst key.
  assert ((k, c) ∈ filter (λ c : string * pd.column, c.1 = k) l) as Hin'
    by by apply list_elem_of_filter.
  rewrite Hnil in Hin'. by apply elem_of_nil in Hin'.
Qed.

Lemma filter_label_replace_labelled_ne (cols : list (string * pd.column))
    k new key :
  key ≠ k →
  filter (λ c, c.1 = key) (pd.replace_labelled k new cols)
  = filter (λ c, c.1 = key) cols.
Proof.
  intros Hne. revert new. induction cols as [|[k' c] cols IH]; intros new.
  { done. }
  simpl. destruct (decide (k' = k)) as [->|Hk].
  - destruct new as [|v new]; [done|].
    rewrite !filter_cons_False by (simpl; congruence). apply IH.
  - rewrite !filter_cons, IH. done.
Qed.

Lemma length_filter_replace_labelled (cols : list (string * pd.column)) k new :
  length (filter (λ c, c.1 = k) (pd.replace_labelled k new cols))
  = length (filter (λ c, c.1 = k) cols).
Proof.
  revert new. induction cols as [|[k' c] cols IH]; intros new; [done|].
  simpl. destruct (decide (k' = k)) as [->|Hk].
  - destruct new as [|v new]; [done|].
    rewrite !filter_cons_True by done. simpl. by rewrite IH.
  - rewrite !filter_cons_False by done. apply IH.
Qed.

Lemma replace_labelled_idemp (cols : list (string * pd.column)) k new :
  pd.replace_labelled k new (pd.replace_labelled k new cols)
  = pd.replace_labelled k new cols.
Proof.
  revert new. induction cols as [|[k' c] cols IH]; intros new; [done|].
  simpl. destruct (decide (k' = k)) as [->|Hk].
  - destruct new as [|v new]; simpl.
    + by rewrite decide_True.
    + rewrite decide_True by done. by rewrite IH.
  - simpl. rewrite decide_False by done. by rewrite IH.
Qed.

Lemma replace_labelled_new (l : list (string * pd.column)) k v :
  filter (λ c, c.1 = k) l = [] →
  pd.replace_labelled k [v] (l ++ [(k, v)]) = l ++ [(k, v)].
Proof.
  induction l as [|[k' c] l IH]; intros Hnil; simpl.
  { by rewrite decide_True. }
  rewrite filter_cons in Hnil. simpl in Hnil.
  destruct (decide (k' = k)) as [->|Hk]; [done|]. by rewrite IH.
Qed.

Lemma elem_of_columns_setitem (df : pd.DataFrame) key v k :
  k ∈ pd.columns (pd.setitem df key v) ↔ k ∈ pd.columns df ∨ k = key.
Proof.
  rewrite columns_setitem. case_bool_decide as Hkey.
  - split; [by left|]. by intros [?| ->].
  - rewrite elem_of_app, list_elem_of_singleton. done.
Qed.

Lemma setitem_setitem (df : pd.DataFrame) key v :
  pd.setitem (pd.setitem df key v) key v = pd.setitem df key v.
Proof.
  assert (key ∈ pd.columns (pd.setitem df key v)) as Hin
    by (apply elem_of_columns_setitem; by right).
  unfold pd.setitem at 1. rewrite bool_decide_true by done.
  rewrite index_setitem. unfold pd.setitem. case_bool_decide as Hkey; simpl.
  - f_equal. rewrite <- list_fmap_compose. apply list_fmap_ext.
    intros i [k c] _. simpl.
    destruct (decide (k = key)) as [->|Hk]; simpl;
      [by rewrite decide_True|by rewrite decide_False].
  - f_equal. rewrite fmap_app. simpl. rewrite decide_True by done. f_equal.
    rewrite <- (list_fmap_id (pd.data df)) at 2. apply list_fmap_ext.
    intros i [k c] Hi. simpl. rewrite decide_False; [done|].
    intros ->. apply Hkey, list_elem_of_fmap. exists (key, c).
    split; [done|]. by eapply list_elem_of_lookup_2.
Qed.

Lemma setitem_new (df : pd.DataFrame) key v :
  filter (λ c, c.1 = key) (pd.data df) = [] →
  pd.setitem df key v
  = {| pd.index := pd.index df; pd.data := pd.data df ++ [(key, v)] |}.
Proof.
  intros Hnil%filter_label_nil. unfold pd.setitem.
  by rewrite bool_decide_false.
Qed.

(** Assigning to another label leaves a selection as it is. *)
Lemma getitem_setitem_selection_ne (df df' : pd.DataFrame) k value key :
  pd.setitem_selection df k value = inr df' → key ≠ k →
  pd.getitem df' key = pd.getitem df key.
Proof.
  intros Hset Hne. destruct value as [c|cols]; simpl in Hset.
  { injection Hset as <-. by apply getitem_setitem_ne. }
  unfold pd.setitem_frame in Hset.
  destruct (filter _ _) as [|e es] eqn:Hexisting.
  - destruct cols as [|c [|c' cols]]; simplify_eq. by apply getitem_setitem_ne.
  - case_decide; simplify_eq. unfold pd.getitem. simpl.
    by rewrite filter_label_replace_labelled_ne.
Qed.

(** Assigning the same value again changes nothing. *)
Lemma setitem_selection_idemp (df df' : pd.DataFrame) k value :
  pd.setitem_selection df k value = inr df' →
  pd.setitem_selection df' k value = inr df'.
Proof.
  intros Hset. destruct value as [c|cols]; simpl in *.
  { injection Hset as <-. by rewrite setitem_setitem. }
  unfold pd.setitem_frame in *.
  destruct (filter _ (pd.data df)) as [|e es] eqn:Hexisting.
  - destruct cols as [|c [|c' cols]]; simplify_eq.
    rewrite setitem_new by done. simpl.
    rewrite filter_app, Hexisting, filter_cons_True, filter_nil by done.
    simpl. by rewrite replace_labelled_new.
  - case_decide as Hlen; simplify_eq. simpl.
    pose proof (length_filter_replace_labelled (pd.data df) k cols.*2) as Hlen'.
    rewrite Hexisting, Hlen in Hlen'.
    destruct (filter _ (pd.replace_labelled _ _ _)) as [|e' es'] eqn:Hnew.
    { simpl in Hlen, Hlen'. lia. }
    rewrite decide_True by done. by rewrite replace_labelled_idemp.
Qed.

Lemma getitem_inr_present (df : pd.DataFrame) key selected :
  pd.getitem df key = inr selected → key ∈ pd.columns df.
Proof.
  unfold pd.getitem. destruct (filter _ _) as [|[k c] l] eqn:Hfilter; [done|].
  intros _. assert ((k, c) ∈ filter (λ c, c.1 = key) (pd.data df)) as Hin
    by (rewrite Hfilter; left).
  apply list_elem_of_filter in Hin as [Hk Hin]. simpl in Hk. subst k.
  apply list_elem_of_fmap. by exists (key, c).
Qed.

(** A second call, made in the state that the first call leaves, has the
    outcome of the first and leaves that state, unless the indicator is
    itself named [rank_col2_calc]: the assignment of line 74 does not
    touch the column it reads, and assigns the same ranks again. *)
Lemma extreme_rank_countries_repeat quicksort rank_col1 rank_col2 top_n w :
  rank_col2 ≠ "rank_col2_calc" →
  extreme_rank_countries quicksort rank_col1 rank_col2 top_n
    (extreme_rank_countries quicksort rank_col1 rank_col2 top_n w).2
  = extreme_rank_countries quicksort rank_col1 rank_col2 top_n w.
Proof.
  intros Hne.
  pose proof (extreme_rank_countries_run quicksort rank_col1 rank_col2 top_n w)
    as Hfirst.
  case_bool_decide as Habsent; [by rewrite Hfirst|].
  destruct (pd.getitem (caller_df w) rank_col2) as [e|indicator] eqn:Hind;
    [by rewrite Hfirst|].
  destruct (pd.setitem_selection _ _ _) as [e|df1] eqn:Hset;
    [by rewrite Hfirst|].
  rewrite Hfirst at 1. simpl. rewrite extreme_rank_countries_run. simpl.
  assert (pd.getitem df1 rank_col2 = inr indicator) as Hind1.
  { by rewrite (getitem_setitem_selection_ne _ _ _ _ _ Hset). }
  rewrite bool_decide_false;
    [|intros Hout; by apply Hout, (getitem_inr_present _ _ _ Hind1)].
  by rewrite Hind1, (setitem_selection_idemp _ _ _ _ Hset), Hfirst.
Qed.

Lemma filter_label_filter (l : list (string * pd.column)) k key :
  filter (λ c, c.1 = key) (filter (λ c, c.1 = k) l)
  = if decide (k = key) then filter (λ c, c.1 = key) l else [].
Proof.
  induction l as [|[k' c] l IH]; [by case_decide|].
  rewrite (filter_cons (λ c, c.1 = k)). simpl.
  destruct (decide (k' = k)) as [->|Hk'].
  - rewrite !filter_cons, IH. simpl. by case_decide.
  - rewrite IH. case_decide as Hk; [|done]. subst key.
    by rewrite filter_cons_False.
Qed.

(** The columns that a label selects in the working table of line 75. *)
Lemma filter_label_temp (df : pd.DataFrame) rank_col1 key :
  filter (λ c, c.1 = key)
    (["cname"; rank_col1; "rank_col2_calc"]
       ≫= λ k, filter (λ c, c.1 = k) (pd.data df))
  = (if decide ("cname" = key) then filter (λ c, c.1 = key) (pd.data df)
     else [])
    ++ (if decide (rank_col1 = key) then filter (λ c, c.1 = key) (pd.data df)
        else [])
    ++ (if decide ("rank_col2_calc" = key)
        then filter (λ c, c.1 = key) (pd.data df) else []).
Proof.
  cbn [mbind list_bind]. rewrite !filter_app, !filter_label_filter, filter_nil.
  by rewrite app_nil_r.
Qed.

Lemma length_sub_columns x y cols :
  pd.sub_columns x y = inr cols → length cols = length x `min` length y.
Proof.
  revert y cols. induction x as [|[k a] x IH]; intros [|[k' b] y] cols;
    simpl; try by intros [= <-].
  destruct (pd.sub a b); [done|].
  destruct (pd.sub_columns x y) as [|cols'] eqn:Hcols; [done|].
  intros [= <-]. simpl. by rewrite (IH y cols').
Qed.

Lemma setitem_frame_new (df : pd.DataFrame) key cols :
  filter (λ c, c.1 = key) (pd.data df) = [] → 2 ≤ length cols →
  ∃ msg, pd.setitem_frame df key cols = inl (ValueError msg).
Proof.
  intros Hnil Hlen. unfold pd.setitem_frame. rewrite Hnil.
  destruct cols as [|c [|c' cols]]; simpl in Hlen; [lia..|]. by eexists.
Qed.

Lemma setitem_frame_length (df : pd.DataFrame) key cols :
  length (filter (λ c, c.1 = key) (pd.data df)) ≠ length cols →
  2 ≤ length cols →
  ∃ msg, pd.setitem_frame df key cols = inl (ValueError msg).
Proof.
  intros Hne Hlen. unfold pd.setitem_frame.
  destruct (filter _ _) as [|e es] eqn:Hexisting.
  - destruct cols as [|c [|c' cols]]; simpl in Hlen; [lia..|]. by eexists.
  - rewrite decide_False by done. by eexists.
Qed.

Lemma sub_columns_error x y e :
  pd.sub_columns x y = inl e → ∃ msg, e = TypeError msg.
Proof.
  revert y. induction x as [|[k a] x IH]; intros [|[k' b] y]; simpl; try done.
  destruct (pd.sub a b) as [e'|c] eqn:Hsub.
  { intros [= <-]. by eapply sub_error. }
  destruct (pd.sub_columns x y) as [e'|cols] eqn:Hcols; [|done].
  intros [= <-]. by eapply IH.
Qed.

(** Line 76 on a working table in which [rank_col1] or [rank_col2_calc]
    names several columns: the subtraction fails, or else it gives a
    DataFrame that the assignment to [rank_difference] refuses. *)
Lemma line_76_repeated_label (temp : pd.DataFrame) rank_col1 lhs rhs :
  pd.getitem temp rank_col1 = inr lhs →
  pd.getitem temp "rank_col2_calc" = inr rhs →
  (∀ c, lhs ≠ pd.Series c) ∨ (∀ c, rhs ≠ pd.Series c) →
  length (filter (λ c, c.1 = "rank_difference") (pd.data temp))
    ≤ length (filter (λ c, c.1 = rank_col1) (pd.data temp)) →
  (filter (λ c, c.1 = "rank_difference") (pd.data temp) ≠ [] →
   rank_col1 = "rank_difference") →
  match pd.sub_selection lhs rhs with
  | inl e => True
  | inr difference =>
      ∃ msg, pd.setitem_selection temp "rank_difference" difference
             = inl (ValueError msg)
  end.
Proof.
  intros Hlhs Hrhs Hframe Hle Hdiff.
  destruct lhs as [a|x], rhs as [b|y]; simpl; try done.
  { destruct Hframe as [Hframe|Hframe];
      [by destruct (Hframe a)|by destruct (Hframe b)]. }
  apply getitem_Frame in Hlhs as [Hx Hxlen], Hrhs as [Hy Hylen].
  case_decide as Hlabels.
  - destruct (pd.sub_columns x y) as [e|cols] eqn:Hcols; [done|].
    apply length_sub_columns in Hcols. simpl.
    apply setitem_frame_new; [|lia].
    destruct (filter (λ c, c.1 = "rank_difference") (pd.data temp))
      as [|d ds] eqn:Hd; [done|].
    exfalso. specialize (Hdiff ltac:(done)). subst rank_col1.
    destruct x as [|[k1 c1] x], y as [|[k2 c2] y]; simpl in *; try lia.
    assert ((k1, c1) ∈ filter (λ c, c.1 = "rank_difference") (pd.data temp))
      as [Hk1 _]%list_elem_of_filter by (rewrite <- Hx; left).
    assert ((k2, c2) ∈ filter (λ c, c.1 = "rank_col2_calc") (pd.data temp))
      as [Hk2 _]%list_elem_of_filter by (rewrite <- Hy; left).
    simpl in *. congruence.
  - simpl. apply setitem_frame_length.
    + rewrite length_fmap, length_app. rewrite <- Hx in Hle. lia.
    + rewrite length_fmap, length_app. lia.
Qed.

(** The rest of a call on a dataset in which [rank_col1] or
    [rank_col2_calc] names several columns of the working table fails. *)
Lemma lines_75_77_repeated_label quicksort rank_col1 top_n (df : pd.DataFrame) :
  2 ≤ length (filter (λ c, c.1 = rank_col1) (pd.data df))
  ∨ 2 ≤ length (filter (λ c, c.1 = "rank_col2_calc") (pd.data df))
  ∨ rank_col1 = "cname" ∨ rank_col1 = "rank_col2_calc" →
  ∃ e, lines_75_77 quicksort rank_col1 top_n df = inl e.
Proof.
  intros Hrepeated. unfold lines_75_77.
  destruct (pd.getitem_list _ _) as [e|temp] eqn:Htemp; [by exists e|].
  unfold pd.getitem_list in Htemp.
  destruct (filter _ ["cname"; _; _]) eqn:Hmissing; [|done].
  injection Htemp as <-.
  assert (∀ k, k ∈ ["cname"; rank_col1; "rank_col2_calc"] →
               0 < length (filter (λ c, c.1 = k) (pd.data df))) as Hpresent.
  { intros k Hk.
    destruct (filter (λ c, c.1 = k) (pd.data df)) eqn:Hnil; [|simpl; lia].
    apply filter_label_nil in Hnil.
    assert (k ∈ filter (λ k, k ∉ pd.columns df)
                  ["cname"; rank_col1; "rank_col2_calc"]) as Hin
      by by apply list_elem_of_filter.
    rewrite Hmissing in Hin. by apply elem_of_nil in Hin. }
  pose proof (Hpresent rank_col1 ltac:(by right; left)) as Hx.
  pose proof (Hpresent "rank_col2_calc" ltac:(by right; right; left)) as Hy.
  pose proof (filter_label_temp df rank_col1 rank_col1) as HX.
  pose proof (filter_label_temp df rank_col1 "rank_col2_calc") as HY.
  pose proof (filter_label_temp df rank_col1 "rank_difference") as HD.
  set (temp := {| pd.index := pd.index df; pd.data := _ |}).
  change (_ ≫= _) with (pd.data temp) in HX, HY, HD.
  rewrite (decide_True (P := rank_col1 = rank_col1)) in HX by done.
  rewrite (decide_False (P := "cname" = "rank_col2_calc")),
    (decide_True (P := "rank_col2_calc" = "rank_col2_calc")) in HY by done.
  rewrite (decide_False (P := "cname" = "rank_difference")),
    (decide_False (P := "rank_col2_calc" = "rank_difference")), app_nil_r,
    app_nil_l in HD by done.
  assert (2 ≤ length (filter (λ c, c.1 = rank_col1) (pd.data temp))
          ∨ 2 ≤ length (filter (λ c, c.1 = "rank_col2_calc") (pd.data temp)))
    as Hlen.
  { rewrite HX, HY, !length_app.
    destruct Hrepeated as [?|[?|[->| ->]]].
    - left. lia.
    - right. lia.
    - left. rewrite decide_True by done. lia.
    - right. rewrite decide_True by done. lia. }
  assert (length (filter (λ c, c.1 = "rank_difference") (pd.data temp))
          ≤ length (filter (λ c, c.1 = rank_col1) (pd.data temp))) as Hle.
  { rewrite HX, HD, !length_app. case_decide; [subst|simpl]; lia. }
  assert (filter (λ c, c.1 = "rank_difference") (pd.data temp) ≠ [] →
          rank_col1 = "rank_difference") as Hdiff.
  { rewrite HD. by case_decide. }
  destruct (pd.getitem temp rank_col1) as [e|lhs] eqn:Hlhs; [by exists e|].
  destruct (pd.getitem temp "rank_col2_calc") as [e|rhs] eqn:Hrhs;
    [by exists e|].
  assert ((∀ c, lhs ≠ pd.Series c) ∨ (∀ c, rhs ≠ pd.Series c)) as Hframe.
  { destruct Hlen as [Hlen|Hlen]; [left|right]; intros c ->.
    - apply getitem_inr_filter in Hlhs. rewrite Hlhs in Hlen. simpl in Hlen. lia.
    - apply getitem_inr_filter in Hrhs. rewrite Hrhs in Hlen. simpl in Hlen. lia. }
  pose proof (line_76_repeated_label temp rank_col1 lhs rhs Hlhs Hrhs Hframe
                Hle Hdiff) as Hline.
  destruct (pd.sub_selection lhs rhs) as [e|difference]; [by exists e|].
  destruct Hline as [msg ->]. by eexists.
Qed.

(** A call that returns a table got a Series at line 74. *)
Lemma extreme_rank_countries_series quicksort rank_col1 rank_col2 top_n w
    result :
  (extreme_rank_countries quicksort rank_col1 rank_col2 top_n w).1
    = inr result →
  ∃ indicator : pd.column,
    pd.getitem (caller_df w) rank_col2 = inr (pd.Series indicator).
Proof.
  rewrite extreme_rank_countries_run. case_bool_decide; [done|].
  destruct (pd.getitem _ _) as [e|[indicator|cols]] eqn:Hind; [done| |].
  { intros _. by exists indicator. }
  destruct (pd.setitem_selection _ _ _) as [e|df1] eqn:Hset; [done|].
  simpl. intros Hrest. exfalso.
  destruct (lines_75_77_repeated_label quicksort rank_col1 top_n df1)
    as [e He]; [|by rewrite He in Hrest].
  right. left. apply getitem_Frame in Hind as [_ Hlen].
  simpl in Hset. unfold pd.setitem_frame in Hset.
  rewrite <- (length_fmap (prod_map id pd.rank)) in Hlen.
  destruct (filter _ (pd.data (caller_df w))) as [|e es] eqn:Hexisting.
  - destruct (prod_map id pd.rank <$> cols) as [|c [|c' l]];
      simpl in Hlen; try lia; done.
  - case_decide as Heq; [|done]. injection Hset as <-. simpl.
    rewrite length_filter_replace_labelled, Hexisting, Heq. done.
Qed.

(** ** The caller's dataset after a call *)

(** C1, as the code has it: [summary_statistics] leaves the caller's
    dataset as it is. A successful call of [extreme_rank_countries]
    changes it in one way: line 74 assigns the derived rank as column
    [rank_col2_calc] of the dataset itself; the row index and every column
    with another name are as before. *)
Theorem C1_dataset_after_call quicksort vars_of_interest rank_col1 rank_col2
    top_n w result :
  (extreme_rank_countries quicksort rank_col1 rank_col2 top_n w).1
    = inr result →
  caller_df (summary_statistics quicksort vars_of_interest w).2 = caller_df w
  ∧ ∃ indicator,
      pd.getitem (caller_df w) rank_col2 = inr (pd.Series indicator)
      ∧ let df' :=
          caller_df
            (extreme_rank_countries quicksort rank_col1 rank_col2 top_n w).2 in
        df' = pd.setitem (caller_df w) "rank_col2_calc" (pd.rank indicator)
        ∧ pd.index df' = pd.index (caller_df w)
        ∧ ∀ key, key ≠ "rank_col2_calc" →
                 pd.getitem df' key = pd.getitem (caller_df w) key.
Proof.
  intros Hok. split; [apply summary_statistics_df|].
  destruct (extreme_rank_countries_series _ _ _ _ _ _ Hok)
    as [indicator Hind].
  exists indicator. split; [done|]. simpl.
  rewrite extreme_rank_countries_df, Hind. simpl.
  split; [done|]. split; [apply index_setitem|].
  intros key Hkey. by apply getitem_setitem_ne.
Qed.

Lemma C1_dataset_after_call_witness :
  (extreme_rank_countries stable_sort "rank1" "rank2" 2 example_world).1
    = inr {| pd.index := [2; 0];
             pd.data :=
               [("cname", pd.StrCol [Some "C"; Some "A"]);
                ("rank1", pd.NumCol [Some 3; Some 1]%Q);
                ("rank_col2_calc", pd.NumCol [Some 2; Some 1]%Q);
                ("rank_difference", pd.NumCol [Some 1; Some 0]%Q)] |}
  ∧ caller_df (summary_statistics stable_sort ["rank1"] example_world).2
    = example_df.
Proof.
  split; [vm_compute; reflexivity|].
  eapply (C1_dataset_after_call stable_sort ["rank1"] "rank1" "rank2" 2
            example_world).
  vm_compute. reflexivity.
Defined.

(** C1 as stated fails: after a successful call of
    [extreme_rank_countries] the caller's dataset has a fourth column. *)
Lemma C1_caller_dataset_gains_a_column :
  let outcome :=
    extreme_rank_countries stable_sort "rank1" "rank2" 2 example_world in
  (∃ result, outcome.1 = inr result)
  ∧ pd.columns (caller_df outcome.2)
    = ["cname"; "rank1"; "rank2"; "rank_col2_calc"]
  ∧ caller_df outcome.2 ≠ example_df.
Proof.
  split; [|split].
  - eexists. vm_compute. reflexivity.
  - vm_compute. reflexivity.
  - intros Heq. apply (f_equal pd.columns) in Heq. vm_compute in Heq.
    discriminate.
Qed.

(** ** ValueErrors *)






(** ** Calling again *)

(** C9, as the code has it: a call made again on the same dataset object
    with the same arguments repeats the first. A second call of
    [summary_statistics] returns the table, or raises the exception, of
    the first, and the dataset is the one the first call was given. A
    second call of [extreme_rank_countries] has the outcome of the first
    and leaves the state the first left, unless the indicator is itself
    named [rank_col2_calc]: the first call changes the dataset, and then
    the second ranks the ranks. The sorting routine is a function of
    its input, and numbers are exact. *)
Theorem C9_same_inputs_same_output quicksort vars_of_interest rank_col1
    rank_col2 top_n (w : World) :
  let after := (summary_statistics quicksort vars_of_interest w).2 in
  (summary_statistics quicksort vars_of_interest after).1
  = (summary_statistics quicksort vars_of_interest w).1
  ∧ caller_df (summary_statistics quicksort vars_of_interest after).2
    = caller_df w
  ∧ (rank_col2 ≠ "rank_col2_calc" →
     extreme_rank_countries quicksort rank_col1 rank_col2 top_n
       (extreme_rank_countries quicksort rank_col1 rank_col2 top_n w).2
     = extreme_rank_countries quicksort rank_col1 rank_col2 top_n w).
Proof.
  intros after. split; [|split].
  - apply summary_statistics_outcome, summary_statistics_df.
  - unfold after. by rewrite !summary_statistics_df.
  - apply extreme_rank_countries_repeat.
Qed.

Lemma C9_same_inputs_same_output_witness :
  (summary_statistics stable_sort ["rank1"; "z"]
     (summary_statistics stable_sort ["rank1"; "z"] example_world).2).1
  = (summary_statistics stable_sort ["rank1"; "z"] example_world).1
  ∧ extreme_rank_countries stable_sort "rank1" "rank2" 2
      (extreme_rank_countries stable_sort "rank1" "rank2" 2 example_world).2
    = extreme_rank_countries stable_sort "rank1" "rank2" 2 example_world.
Proof.
  destruct (C9_same_inputs_same_output stable_sort ["rank1"; "z"] "rank1"
              "rank2" 2 example_world) as (Hsummary & _ & Hextreme).
  split; [exact Hsummary|]. apply Hextreme. discriminate.
Defined.

(** C9 as stated fails for [extreme_rank_countries]: the same arguments
    on the same object do not always give the same table. Below the
    indicator is named like the derived column; the first call replaces
    it by its ranks, the second call ranks these ranks, and returns
    other rows. *)
Example second_call_on_changed_dataset :
  let first :=
    extreme_rank_countries stable_sort "rank1" "rank_col2_calc" 2
      {| caller_df := calc_df; stdout := [] |} in
  let second :=
    extreme_rank_countries stable_sort "rank1" "rank_col2_calc" 2 first.2 in
  ∃ table1 table2,
    first.1 = inr table1 ∧ second.1 = inr table2
    ∧ pd.index table1 = [2; 0] ∧ pd.index table2 = [1; 2]
    ∧ pd.getitem table1 "cname"
      = inr (pd.Series (pd.StrCol [Some "C"; Some "A"]))
    ∧ pd.getitem table2 "cname"
      = inr (pd.Series (pd.StrCol [Some "B"; Some "C"])).
Proof. do 2 eexists. repeat split; vm_compute; reflexivity. Qed.

(** ** Sorting *)

Lemma omap_lookup_seq_app {A B} (f : A → B) (l0 l : list A) :
  omap (λ k, f <$> (l0 ++ l) !! k) (seq (length l0) (length l)) = f <$> l.
Proof.
  revert l0. induction l as [|x l IH]; intros l0; [done|].
  simpl. rewrite list_lookup_middle by done. simpl. f_equal.
  specialize (IH (l0 ++ [x])).
  rewrite length_app, Nat.add_1_r, <- app_assoc in IH. exact IH.
Qed.

Lemma omap_lookup_Permutation {A B} (f : A → B) (l : list A) (p : list nat) :
  p ≡ₚ seq 0 (length l) → omap (λ k, f <$> l !! k) p ≡ₚ f <$> l.
Proof. intros ->. by rewrite <- (omap_lookup_seq_app f [] l). Qed.


Lemma length_omap_lookup {A} (l : list A) (p : list nat) :
  Forall (λ k, k < length l) p → length (omap (l !!.) p) = length p.
Proof.
  induction 1 as [|k p Hk _ IH]; [done|].
  simpl. destruct (lookup_lt_is_Some_2 l k Hk) as [x ->]. simpl.
  f_equal. exact IH.
Qed.



Lemma StronglySorted_take {A} (R : relation A) (l : list A) k :
  StronglySorted R l → StronglySorted R (take k l).
Proof.
  intros Hl. rewrite <- (take_drop k l) in Hl.
  by apply StronglySorted_app_1_l in Hl.
Qed.

Section nargsort.
Context (quicksort : argsort_impl) {A : Type} (ltb : A → A → bool).
Context (items : list (option A)).

(** The values that are not missing, with their positions. *)
Let nonnan : list (nat * A) :=
  omap (λ i, v ← items !! i ≫= id; Some (i, v)) (seq 0 (length items)).

Lemma nonnan_lookup i x : (i, x) ∈ nonnan → items !! i = Some (Some x).
Proof.
  intros (j & _ & Hj)%list_elem_of_omap.
  destruct (items !! j) as [[v|]|] eqn:Hv; simplify_eq/=. done.
Qed.

Lemma nonnan_positions (idx : list nat) :
  Forall (λ i, i < length items) idx →
  (omap (λ i, v ← items !! i ≫= id; Some (i, v)) idx).*1
  = filter (λ i, ¬ pd.isna items i) idx.
Proof.
  induction 1 as [|i idx Hi _ IH]; [done|].
  destruct (lookup_lt_is_Some_2 items i Hi) as [o Ho].
  assert (pd.isna items i = if o is None then true else false) as Hna.
  { unfold pd.isna. rewrite Ho. by destruct o. }
  csimpl. rewrite Ho. destruct o as [v|]; csimpl.
  - rewrite filter_cons_True; [by rewrite <- IH|]. rewrite Hna. by intros [].
  - rewrite filter_cons_False; [done|]. rewrite Hna. intros Hnot. by apply Hnot.
Qed.

Lemma nargsort_Permutation ascending :
  pd.nargsort quicksort ltb items ascending ≡ₚ seq 0 (length items).
Proof.
  unfold pd.nargsort. fold nonnan.
  set (nonnan' := if ascending then nonnan else reverse nonnan).
  assert (nonnan' ≡ₚ nonnan) as Hperm.
  { unfold nonnan'. destruct ascending; [done|apply reverse_Permutation]. }
  set (indexer := omap _ (argsort quicksort ltb nonnan'.*2)).
  assert (indexer ≡ₚ nonnan.*1) as Hindexer.
  { unfold indexer. rewrite omap_lookup_Permutation.
    - by rewrite Hperm.
    - rewrite argsort_perm. by rewrite length_fmap. }
  assert ((if ascending then indexer else reverse indexer) ≡ₚ nonnan.*1) as ->.
  { destruct ascending; [done|]. by rewrite reverse_Permutation. }
  unfold nonnan. rewrite nonnan_positions.
  - rewrite (comm (++)). apply filter_app_complement.
  - apply Forall_forall. intros i Hi%elem_of_seq. lia.
Qed.

Lemma length_nargsort ascending :
  length (pd.nargsort quicksort ltb items ascending) = length items.
Proof. by rewrite nargsort_Permutation, length_seq. Qed.

Lemma nargsort_in_range ascending :
  Forall (λ i, i < length items) (pd.nargsort quicksort ltb items ascending).
Proof.
  rewrite nargsort_Permutation. apply Forall_forall.
  intros i Hi%elem_of_seq. lia.
Qed.

End nargsort.

(** ** extreme_rank_countries on a valid input *)

(** A call in which every statement succeeds. *)
Lemma extreme_rank_countries_steps quicksort rank_col1 rank_col2 top_n w
    indicator temp lhs rhs difference sorted :
  pd.getitem (caller_df w) rank_col2 = inr (pd.Series indicator) →
  pd.getitem_list
    (pd.setitem (caller_df w) "rank_col2_calc" (pd.rank indicator))
    ["cname"; rank_col1; "rank_col2_calc"] = inr temp →
  pd.getitem temp rank_col1 = inr (pd.Series lhs) →
  pd.getitem temp "rank_col2_calc" = inr (pd.Series rhs) →
  pd.sub lhs rhs = inr difference →
  pd.sort_values quicksort (pd.setitem temp "rank_difference" difference)
    "rank_difference" false = inr sorted →
  extreme_rank_countries quicksort rank_col1 rank_col2 top_n w
  = (inr (pd.head sorted top_n),
     {| caller_df :=
          pd.setitem (caller_df w) "rank_col2_calc" (pd.rank indicator);
        stdout := stdout w |}).
Proof.
  intros Hind Htemp Hlhs Hrhs Hsub Hsort. unfold_call.
  rewrite bool_decide_false.
  - rewrite Hind. simpl. rewrite Htemp. simpl. rewrite Hlhs, Hrhs. simpl.
    rewrite Hsub. simpl. by rewrite Hsort.
  - intros Habsent. apply Habsent, list_elem_of_fmap.
    exists (rank_col2, indicator). split; [done|]. by apply getitem_inr_elem_of.
Qed.

Lemma rank_length (c : pd.column) :
  ∃ ranks, pd.rank c = pd.NumCol ranks ∧ length ranks = pd.col_length c.
Proof.
  destruct c as [v|v]; eexists; (split; [done|]);
    unfold pd.rank_descending; by rewrite length_fmap.
Qed.

Lemma wf_elem_of (df : pd.DataFrame) key c :
  pd.wf df → (key, c) ∈ pd.data df → pd.col_length c = length (pd.index df).
Proof. unfold pd.wf. rewrite Forall_forall. intros Hwf Hin. by apply (Hwf _ Hin). Qed.

(** ** Sorting values that are all different *)

Section no_ties.
Context {A : Type} (ltb : A → A → bool) (items : list (option A)).
Hypothesis ltb_strict_weak : strict_weak ltb.
Hypothesis items_no_ties : no_ties ltb items.

Let nonnan : list (nat * A) :=
  omap (λ i, v ← items !! i ≫= id; Some (i, v)) (seq 0 (length items)).

Lemma nonnan_NoDup : NoDup nonnan.*1.
Proof.
  unfold nonnan. rewrite nonnan_positions.
  - apply NoDup_filter, NoDup_seq.
  - apply Forall_forall. intros i Hi%elem_of_seq. lia.
Qed.

(** Without ties the sorted order is the same for every implementation
    of [argsort]. *)
Lemma argsort_no_ties (quicksort quicksort' : argsort_impl)
    (nonnan' : list (nat * A)) :
  nonnan' ≡ₚ nonnan →
  argsort quicksort ltb nonnan'.*2 = argsort quicksort' ltb nonnan'.*2.
Proof.
  intros Hperm.
  assert (NoDup nonnan'.*1) as Hnodup by (rewrite Hperm; apply nonnan_NoDup).
  eapply StronglySorted_unique_strong;
    [|by apply (argsort_sorted quicksort)
     |by apply (argsort_sorted quicksort')
     |by rewrite !argsort_perm].
  intros k1 k2 Hk1 Hk2 H12 H21.
  rewrite argsort_perm in Hk1, Hk2.
  apply elem_of_seq in Hk1 as [_ Hk1], Hk2 as [_ Hk2].
  rewrite length_fmap in Hk1, Hk2. simpl in Hk1, Hk2.
  destruct (lookup_lt_is_Some_2 nonnan' k1 Hk1) as [[i x] Hx].
  destruct (lookup_lt_is_Some_2 nonnan' k2 Hk2) as [[j y] Hy].
  assert (nonnan'.*2 !! k1 = Some x) as Hx2 by by rewrite list_lookup_fmap, Hx.
  assert (nonnan'.*2 !! k2 = Some y) as Hy2 by by rewrite list_lookup_fmap, Hy.
  assert (i = j) as <-.
  { apply (items_no_ties i j x y).
    - apply (nonnan_lookup items). fold nonnan. rewrite <- Hperm.
      by eapply list_elem_of_lookup_2.
    - apply (nonnan_lookup items). fold nonnan. rewrite <- Hperm.
      by eapply list_elem_of_lookup_2.
    - by apply (H21 y x).
    - by apply (H12 x y). }
  apply (NoDup_lookup nonnan'.*1 k1 k2 i); [done|..];
    rewrite list_lookup_fmap; [by rewrite Hx|by rewrite Hy].
Qed.

Lemma nargsort_no_ties (quicksort quicksort' : argsort_impl) ascending :
  pd.nargsort quicksort ltb items ascending
  = pd.nargsort quicksort' ltb items ascending.
Proof.
  unfold pd.nargsort. cbv zeta. fold nonnan.
  rewrite (argsort_no_ties quicksort quicksort'); [done|].
  destruct ascending; [done|apply reverse_Permutation].
Qed.
End no_ties.

(** The three differences of the example are all different. *)
Lemma example_no_ties : no_ties Qltb [Some 0; Some (-1); Some 1]%Q.
Proof.
  intros i j x y Hi Hj Hxy Hyx.
  destruct i as [|[|[|i]]], j as [|[|[|j]]]; simplify_eq/=; done.
Qed.

(** C7: on the dataset with countries A, B, C, given ranks 1, 2, 3 and
    indicator values 30, 10, 20, the derived ranks are 1, 3, 2 and the
    rank differences 0, -1, 1; with [top_n = 2] the call returns row C
    (difference 1) and then row A (difference 0), whatever the sort
    does with ties. The derived ranks are also written into the caller's
    dataset. *)
Theorem C7_example quicksort :
  pd.rank (pd.NumCol [Some 30; Some 10; Some 20]%Q)
    = pd.NumCol [Some 1; Some 3; Some 2]%Q
  ∧ pd.sub (pd.NumCol [Some 1; Some 2; Some 3]%Q)
           (pd.NumCol [Some 1; Some 3; Some 2]%Q)
    = inr (pd.NumCol [Some 0; Some (-1); Some 1]%Q)
  ∧ extreme_rank_countries quicksort "rank1" "rank2" 2 example_world
    = (inr {| pd.index := [2; 0];
              pd.data :=
                [("cname", pd.StrCol [Some "C"; Some "A"]);
                 ("rank1", pd.NumCol [Some 3; Some 1]%Q);
                 ("rank_col2_calc", pd.NumCol [Some 2; Some 1]%Q);
                 ("rank_difference", pd.NumCol [Some 1; Some 0]%Q)] |},
       {| caller_df :=
            pd.setitem example_df "rank_col2_calc"
              (pd.NumCol [Some 1; Some 3; Some 2]%Q);
          stdout := [] |}).
Proof.
  split; [reflexivity|]. split; [reflexivity|].
  set (temp :=
    {| pd.index := [0; 1; 2];
       pd.data :=
         [("cname", pd.StrCol [Some "A"; Some "B"; Some "C"]);
          ("rank1", pd.NumCol [Some 1; Some 2; Some 3]%Q);
          ("rank_col2_calc", pd.NumCol [Some 1; Some 3; Some 2]%Q)] |}).
  set (difference := pd.NumCol [Some 0; Some (-1); Some 1]%Q).
  rewrite (extreme_rank_countries_steps quicksort "rank1" "rank2" 2
             example_world (pd.NumCol [Some 30; Some 10; Some 20]%Q) temp
             (pd.NumCol [Some 1; Some 2; Some 3]%Q)
             (pd.NumCol [Some 1; Some 3; Some 2]%Q) difference
             (pd.take_rows (pd.setitem temp "rank_difference" difference)
                [2; 0; 1])); try reflexivity.
  unfold pd.sort_values.
  change (pd.getitem (pd.setitem temp "rank_difference" difference)
            "rank_difference") with (inr (A:=exn) (pd.Series difference)).
  unfold difference at 1.
  rewrite (nargsort_no_ties Qltb _ Qltb_strict_weak example_no_ties
             quicksort stable_sort).
  reflexivity.
Qed.

(** ** summary_statistics *)

Lemma filter_label_absent (df : pd.DataFrame) key :
  key ∉ pd.columns df → filter (λ c, c.1 = key) (pd.data df) = [].
Proof.
  intros Habsent. apply filter_nil_Forall, Forall_forall.
  intros [k c] Hin Heq. simpl in Heq. subst k.
  apply Habsent, list_elem_of_fmap. by exists (key, c).
Qed.

(** The numeric columns among the requested ones that are present, in
    the order of the request. *)
Lemma selected_numeric_labels (df : pd.DataFrame) (requested : list string) :
  NoDup (pd.columns df) →
  (filter (λ c, pd.is_numeric c.2)
     (filter (λ v, v ∈ pd.columns df) requested
        ≫= λ k, filter (λ c, c.1 = k) (pd.data df))).*1
  = filter (λ v, numeric_column df v) requested.
Proof.
  intros Hnodup. induction requested as [|v l IH]; [done|].
  rewrite (filter_cons (λ v, v ∈ pd.columns df)).
  destruct (decide (v ∈ pd.columns df)) as [Hin|Hout].
  - destruct (getitem_present df v Hnodup Hin) as (c & Hc & Hget).
    assert (numeric_column df v = pd.is_numeric c) as Hnum.
    { unfold numeric_column. by rewrite Hget. }
    rewrite bind_cons, (getitem_inr_filter _ _ _ Hget), filter_app, fmap_app, IH.
    rewrite (filter_cons (λ v, numeric_column df v)), Hnum.
    rewrite filter_cons, filter_nil. simpl.
    by destruct (pd.is_numeric c).
  - rewrite IH, filter_cons_False; [done|].
    unfold numeric_column, pd.getitem. rewrite filter_label_absent by done.
    by intros [].
Qed.

Lemma T_measures (t : pd.StatFrame) : (pd.sdata (pd.T t)).*1 = pd.sindex t.
Proof.
  unfold pd.T. simpl. rewrite fmap_imap.
  rewrite (imap_ext _ (const id)) by done. by rewrite imap_const, list_fmap_id.
Qed.

Lemma summary_statistics_result quicksort vars_of_interest w :
  (summary_statistics quicksort vars_of_interest w).1
  = match pd.getitem_list (caller_df w)
            (filter (λ v, v ∈ pd.columns (caller_df w)) vars_of_interest) with
    | inl e => inl e
    | inr selected =>
        match pd.describe quicksort selected with
        | inl e => inl e
        | inr described => inr (pd.T described)
        end
    end.
Proof. unfold_call. repeat case_match; simplify_eq/=; done. Qed.

Lemma getitem_list_available (df : pd.DataFrame) (requested : list string) :
  pd.getitem_list df (filter (λ v, v ∈ pd.columns df) requested)
  = inr {| pd.index := pd.index df;
           pd.data := filter (λ v, v ∈ pd.columns df) requested
                      ≫= λ k, filter (λ c, c.1 = k) (pd.data df) |}.
Proof.
  unfold pd.getitem_list. rewrite filter_nil_Forall; [done|].
  apply Forall_forall. intros v [Hv _]%list_elem_of_filter. by intros [].
Qed.

Lemma describe_numeric_columns quicksort (df : pd.DataFrame) :
  filter (λ c, pd.is_numeric c.2) (pd.data df) ≠ [] →
  pd.describe quicksort df
  = inr {| pd.sindex := pd.numeric_measures;
           pd.sdata := prod_map id (pd.describe_1d quicksort)
                         <$> filter (λ c, pd.is_numeric c.2) (pd.data df) |}.
Proof.
  intros Hnumeric. unfold pd.describe.
  destruct (pd.data df) as [|c l]; [done|].
  by destruct (filter _ (c :: l)).
Qed.

(** C3, as the code has it: for a dataset with distinct column labels
    and a request that names at least one numeric column of it,
    [summary_statistics] returns a table with one row for each name in
    the request that is a numeric column of the dataset, in the order of
    the request, and no other row: names that are absent and names of
    non-numeric columns get no row. The columns are the eight measures,
    and the row of a column holds the statistics of its values. *)
Theorem C3_rows_of_numeric_columns quicksort vars_of_interest w :
  NoDup (pd.columns (caller_df w)) →
  (∃ v, v ∈ vars_of_interest ∧ numeric_column (caller_df w) v) →
  ∃ table,
    (summary_statistics quicksort vars_of_interest w).1 = inr table
    ∧ pd.sindex table
      = filter (λ v, numeric_column (caller_df w) v) vars_of_interest
    ∧ (pd.sdata table).*1
      = ["count"; "mean"; "std"; "min"; "25%"; "50%"; "75%"; "max"]
    ∧ ∀ r v, pd.sindex table !! r = Some v →
        ∃ vals,
          pd.getitem (caller_df w) v = inr (pd.Series (pd.NumCol vals))
          ∧ (λ col : string * list pd.stat, col.2 !! r) <$> pd.sdata table
            = Some <$> pd.describe_numeric vals.
Proof.
  intros Hnodup (v0 & Hv0 & Hnum0).
  rewrite summary_statistics_result, getitem_list_available.
  pose proof (selected_numeric_labels (caller_df w) vars_of_interest Hnodup)
    as Hlabels.
  set (selected := filter (λ v, v ∈ pd.columns (caller_df w)) vars_of_interest
                   ≫= λ k, filter (λ c, c.1 = k) (pd.data (caller_df w)))
    in *.
  assert (∀ x, x ∈ selected → x ∈ pd.data (caller_df w)) as Hselected.
  { intros x (k & Hx & _)%list_elem_of_bind.
    by apply list_elem_of_filter in Hx as [_ ?]. }
  rewrite describe_numeric_columns; simpl pd.data.
  2:{ intros Hnil.
      assert (v0 ∈ filter (λ v, numeric_column (caller_df w) v) vars_of_interest)
        as Hin by by apply list_elem_of_filter.
      rewrite <- Hlabels, Hnil in Hin. by apply elem_of_nil in Hin. }
  set (numeric := filter (λ c, pd.is_numeric c.2) selected) in *.
  eexists. split; [done|]. split; [|split].
  - unfold pd.T. simpl pd.sindex. simpl pd.sdata.
    by rewrite <- Hlabels, <- list_fmap_compose.
  - by rewrite T_measures.
  - intros r v Hr. unfold pd.T in Hr. simpl pd.sindex in Hr. simpl pd.sdata in Hr.
    rewrite <- list_fmap_compose, list_lookup_fmap in Hr.
    destruct (numeric !! r) as [[v' c]|] eqn:Hc; simplify_eq/=.
    assert ((v, c) ∈ numeric) as Hin by by eapply list_elem_of_lookup_2.
    apply list_elem_of_filter in Hin as [Hnum Hin]. simpl in Hnum.
    destruct c as [vals|vals]; [|done]. exists vals.
    split; [by apply getitem_elem_of, Hselected|].
    unfold pd.T, pd.numeric_measures. simpl.
    rewrite !list_lookup_fmap, Hc. done.
Qed.

Lemma C3_rows_of_numeric_columns_witness :
  NoDup (pd.columns example_df)
  ∧ ∃ table,
      (summary_statistics stable_sort ["rank1"; "z"; "cname"; "rank2"]
         example_world).1 = inr table
      ∧ pd.sindex table = ["rank1"; "rank2"].
Proof.
  assert (NoDup (pd.columns example_df)) as Hnodup.
  { apply (bool_decide_unpack _). by vm_compute. }
  split; [exact Hnodup|].
  destruct (C3_rows_of_numeric_columns stable_sort
              ["rank1"; "z"; "cname"; "rank2"] example_world Hnodup)
    as (table & Hcall & Hrows & _).
  - exists "rank1". split; [left|by vm_compute].
  - exists table. split; [exact Hcall|]. rewrite Hrows. by vm_compute.
Defined.

(** C3 as stated fails: [cname] is requested and is a column of the
    dataset, yet the table has a row for [rank1] only, because
    [describe] leaves the non-numeric columns out when there is a
    numeric one. When only [cname] is requested the table has a row for
    it, with the four measures of an object column in place of the
    eight. *)
Lemma C3_no_row_for_non_numeric_column :
  (∃ table,
     (summary_statistics stable_sort ["cname"; "rank1"] example_world).1
       = inr table
     ∧ pd.sindex table = ["rank1"]
     ∧ filter (λ v, v ∈ pd.columns example_df) ["cname"; "rank1"]
       = ["cname"; "rank1"])
  ∧ (∃ table,
       (summary_statistics stable_sort ["cname"] example_world).1 = inr table
       ∧ pd.sindex table = ["cname"]
       ∧ (pd.sdata table).*1 = ["count"; "unique"; "top"; "freq"]).
Proof.
  split.
  - eexists. split; [vm_compute; reflexivity|]. split; vm_compute; reflexivity.
  - eexists. split; [vm_compute; reflexivity|]. split; vm_compute; reflexivity.
Qed.

(** * Further properties *)

(** ** The table that extreme_rank_countries returns *)

Lemma columns_take_rows (df : pd.DataFrame) indexer :
  pd.columns (pd.take_rows df indexer) = pd.columns df.
Proof.
  unfold pd.columns, pd.take_rows. simpl. rewrite <- list_fmap_compose.
  apply list_fmap_ext. by intros i [k c] _.
Qed.

Lemma columns_head (df : pd.DataFrame) n :
  pd.columns (pd.head df n) = pd.columns df.
Proof.
  unfold pd.columns, pd.head. simpl. rewrite <- list_fmap_compose.
  apply list_fmap_ext. by intros i [k c] _.
Qed.

Lemma index_head (df : pd.DataFrame) n :
  pd.index (pd.head df n)
  = take (head_count n (length (pd.index df))) (pd.index df).
Proof.
  unfold pd.head, head_count. simpl. destruct (0 <=? n)%Z; [|done].
  destruct (decide (Z.to_nat n ≤ length (pd.index df))).
  - by rewrite Nat.min_l.
  - rewrite Nat.min_r, !take_ge by lia. done.
Qed.

Lemma getitem_head_count (df : pd.DataFrame) key c n :
  pd.wf df → pd.getitem df key = inr (pd.Series c) →
  pd.getitem (pd.head df n) key
  = inr (pd.Series (pd.head_col (head_count n (length (pd.index df))) c)).
Proof.
  intros Hwf Hget.
  pose proof (wf_elem_of _ _ _ Hwf (getitem_inr_elem_of _ _ _ Hget)) as Hlen.
  apply getitem_inr_filter in Hget. unfold pd.getitem, pd.head. simpl.
  rewrite filter_label_prod_map, Hget. simpl.
  unfold head_count. destruct (0 <=? n)%Z; [|done].
  destruct (decide (Z.to_nat n ≤ length (pd.index df))).
  - by rewrite Nat.min_l.
  - rewrite Nat.min_r by lia.
    destruct c as [v|v]; simpl in *; rewrite !take_ge by lia; done.
Qed.

(** A call on a dataset with distinct labels, the columns [cname] and
    [rank_col2], and a numeric [rank_col1] named neither [cname] nor
    [rank_col2_calc]: the working table, sorted, and its head. *)
Lemma extreme_rank_countries_table quicksort rank_col1 rank_col2 top_n w
    names given indicator derived :
  NoDup (pd.columns (caller_df w)) →
  pd.getitem (caller_df w) "cname" = inr (pd.Series names) →
  pd.getitem (caller_df w) rank_col1 = inr (pd.Series (pd.NumCol given)) →
  pd.getitem (caller_df w) rank_col2 = inr (pd.Series indicator) →
  pd.rank indicator = pd.NumCol derived →
  rank_col1 ≠ "cname" →
  rank_col1 ≠ "rank_col2_calc" →
  extreme_rank_countries quicksort rank_col1 rank_col2 top_n w
  = (inr (pd.head
            (pd.take_rows
               (working_table (caller_df w) names rank_col1 given derived)
               (pd.nargsort quicksort Qltb (pd.sub_values given derived) false))
            top_n),
     {| caller_df := pd.setitem (caller_df w) "rank_col2_calc" (pd.NumCol derived);
        stdout := stdout w |}).
Proof.
  intros Hnodup Hnames Hr1 Hind Hrank Hne1 Hne2.
  set (df1 := pd.setitem (caller_df w) "rank_col2_calc" (pd.rank indicator)).
  set (temp := {| pd.index := pd.index df1;
                  pd.data := [("cname", names); (rank_col1, pd.NumCol given);
                              ("rank_col2_calc", pd.NumCol derived)] |}).
  assert (pd.getitem_list df1 ["cname"; rank_col1; "rank_col2_calc"]
          = inr temp) as Htemp.
  { apply getitem_list_three; unfold df1.
    - by rewrite getitem_setitem_ne.
    - by rewrite getitem_setitem_ne.
    - by rewrite getitem_setitem_eq, Hrank. }
  assert (pd.getitem temp rank_col1 = inr (pd.Series (pd.NumCol given))) as Hlhs.
  { unfold pd.getitem, temp. simpl.
    rewrite filter_cons_False, filter_cons_True, filter_cons_False
      by (simpl; congruence). done. }
  assert (pd.getitem temp "rank_col2_calc" = inr (pd.Series (pd.NumCol derived))) as Hrhs.
  { unfold pd.getitem, temp. simpl.
    rewrite filter_cons_False, filter_cons_False, filter_cons_True
      by (simpl; congruence). done. }
  assert (NoDup (pd.columns temp)) as Htemp_nodup.
  { unfold pd.columns, temp. simpl.
    repeat (apply NoDup_cons; split); [| |apply not_elem_of_nil|apply NoDup_nil_2].
    - rewrite !elem_of_cons, elem_of_nil. intros [|[|[]]]; congruence.
    - rewrite !elem_of_cons, elem_of_nil. intros [|[]]; congruence. }
  assert (working_table (caller_df w) names rank_col1 given derived
          = pd.setitem temp "rank_difference"
              (pd.NumCol (pd.sub_values given derived))) as Hwork.
  { unfold working_table, temp, df1. by rewrite index_setitem. }
  rewrite Hwork, <- Hrank.
  apply (extreme_rank_countries_steps quicksort rank_col1 rank_col2 top_n w
           indicator temp (pd.NumCol given) (pd.NumCol derived)
           (pd.NumCol (pd.sub_values given derived))); try done.
  unfold pd.sort_values. by rewrite getitem_setitem_eq.
Qed.


Lemma wf_take_rows (df : pd.DataFrame) indexer :
  pd.wf df → Forall (λ i, i < length (pd.index df)) indexer →
  pd.wf (pd.take_rows df indexer).
Proof.
  unfold pd.wf, pd.take_rows. simpl. intros Hwf Hrange.
  apply Forall_fmap. eapply Forall_impl; [exact Hwf|].
  intros [k c] Hc. simpl in *. rewrite (length_omap_lookup _ _ Hrange).
  destruct c as [v|v]; simpl in *; apply length_omap_lookup; by rewrite Hc.
Qed.

Lemma length_sub_values (x y : list (option Q)) :
  length x = length y → length (pd.sub_values x y) = length x.
Proof. intros Hlen. unfold pd.sub_values. by rewrite length_zip_with_l_eq. Qed.

Lemma wf_working_table (df : pd.DataFrame) names rank_col1 given derived :
  pd.col_length names = length (pd.index df) →
  length given = length (pd.index df) →
  length derived = length (pd.index df) →
  pd.wf (working_table df names rank_col1 given derived).
Proof.
  intros Hnames Hgiven Hderived. unfold working_table. apply wf_setitem.
  - by repeat constructor.
  - simpl. rewrite length_sub_values; congruence.
Qed.

Lemma getitem_working_table (df : pd.DataFrame) names rank_col1 given derived :
  rank_col1 ≠ "cname" → rank_col1 ≠ "rank_col2_calc" →
  let table := working_table df names rank_col1 given derived in
  pd.getitem table "cname" = inr (pd.Series names)
  ∧ pd.getitem table "rank_col2_calc" = inr (pd.Series (pd.NumCol derived))
  ∧ pd.getitem table "rank_difference"
    = inr (pd.Series (pd.NumCol (pd.sub_values given derived)))
  ∧ (rank_col1 ≠ "rank_difference" →
     pd.getitem table rank_col1 = inr (pd.Series (pd.NumCol given))).
Proof.
  intros Hne1 Hne2 table. unfold table, working_table.
  set (temp := {| pd.index := pd.index df; pd.data := _ |}).
  assert (NoDup (pd.columns temp)) as Hnodup.
  { unfold pd.columns, temp. simpl.
    repeat (apply NoDup_cons; split); [| |apply not_elem_of_nil|apply NoDup_nil_2].
    - rewrite !elem_of_cons, elem_of_nil. intros [|[|[]]]; congruence.
    - rewrite !elem_of_cons, elem_of_nil. intros [|[]]; congruence. }
  split; [|split; [|split]].
  - rewrite getitem_setitem_ne by done. unfold pd.getitem, temp. cbn [pd.data].
    rewrite filter_cons_True, filter_cons_False, filter_cons_False
      by (simpl; congruence). done.
  - rewrite getitem_setitem_ne by done. unfold pd.getitem, temp. cbn [pd.data].
    rewrite filter_cons_False, filter_cons_False, filter_cons_True
      by (simpl; congruence). done.
  - by apply getitem_setitem_eq.
  - intros Hne3. rewrite getitem_setitem_ne by done.
    unfold pd.getitem, temp. cbn [pd.data].
    rewrite filter_cons_False, filter_cons_True, filter_cons_False
      by (simpl; congruence). done.
Qed.

Lemma columns_working_table (df : pd.DataFrame) names rank_col1 given derived :
  rank_col1 ≠ "cname" → rank_col1 ≠ "rank_col2_calc" →
  pd.columns (working_table df names rank_col1 given derived)
  = if decide (rank_col1 = "rank_difference")
    then ["cname"; "rank_difference"; "rank_col2_calc"]
    else ["cname"; rank_col1; "rank_col2_calc"; "rank_difference"].
Proof.
  intros Hne1 Hne2. unfold working_table. rewrite columns_setitem.
  unfold pd.columns. simpl. case_decide as Hrd.
  - subst. by rewrite bool_decide_true by (right; left).
  - rewrite bool_decide_false; [done|].
    rewrite !elem_of_cons, elem_of_nil. intros [|[|[|[]]]]; congruence.
Qed.

(** The outcome of a call on a valid input, column by column. *)
Lemma extreme_rank_countries_result quicksort rank_col1 rank_col2 top_n w
    names given indicator derived :
  pd.wf (caller_df w) →
  NoDup (pd.columns (caller_df w)) →
  pd.getitem (caller_df w) "cname" = inr (pd.Series names) →
  pd.getitem (caller_df w) rank_col1 = inr (pd.Series (pd.NumCol given)) →
  pd.getitem (caller_df w) rank_col2 = inr (pd.Series indicator) →
  pd.rank indicator = pd.NumCol derived →
  rank_col1 ≠ "cname" →
  rank_col1 ≠ "rank_col2_calc" →
  let rows := length (pd.index (caller_df w)) in
  let table := working_table (caller_df w) names rank_col1 given derived in
  let order := pd.nargsort quicksort Qltb (pd.sub_values given derived) false in
  let k := head_count top_n rows in
  ∃ result,
    (extreme_rank_countries quicksort rank_col1 rank_col2 top_n w).1
      = inr result
    ∧ order ≡ₚ seq 0 rows
    ∧ pd.columns result = pd.columns table
    ∧ pd.index result = take k (omap (pd.index (caller_df w) !!.) order)
    ∧ ∀ key c, pd.getitem table key = inr (pd.Series c) →
               pd.getitem result key = inr (pd.Series (pd.head_col k (pd.take_col c order))).
Proof.
  intros Hwf Hnodup Hnames Hr1 Hind Hrank Hne1 Hne2 rows table order k.
  pose proof (wf_elem_of _ _ _ Hwf (getitem_inr_elem_of _ _ _ Hnames)) as Hlen0.
  pose proof (wf_elem_of _ _ _ Hwf (getitem_inr_elem_of _ _ _ Hr1)) as Hlen1.
  pose proof (wf_elem_of _ _ _ Hwf (getitem_inr_elem_of _ _ _ Hind)) as Hlen2.
  destruct (rank_length indicator) as (derived' & Hrank' & Hlen3).
  rewrite Hrank in Hrank'. injection Hrank' as <-. simpl in Hlen1.
  rewrite Hlen2 in Hlen3.
  assert (length (pd.sub_values given derived) = rows) as Hdiff
    by (unfold rows; rewrite length_sub_values; congruence).
  assert (order ≡ₚ seq 0 rows) as Hperm.
  { unfold order. by rewrite nargsort_Permutation, Hdiff. }
  assert (Forall (λ i, i < rows) order) as Hrange.
  { rewrite Hperm. apply Forall_forall. intros i Hi%elem_of_seq. lia. }
  assert (pd.index table = pd.index (caller_df w)) as Hindex.
  { unfold table, working_table. by rewrite index_setitem. }
  assert (pd.wf (pd.take_rows table order)) as Hwf'.
  { apply wf_take_rows; [by apply wf_working_table|by rewrite Hindex]. }
  assert (length (pd.index (pd.take_rows table order)) = rows) as Hrows.
  { simpl. rewrite length_omap_lookup by by rewrite Hindex.
    by rewrite Hperm, length_seq. }
  exists (pd.head (pd.take_rows table order) top_n).
  split; [|split; [done|split; [|split]]].
  - by erewrite extreme_rank_countries_table.
  - by rewrite columns_head, columns_take_rows.
  - rewrite index_head, Hrows. simpl. by rewrite Hindex.
  - intros key c Hkey. unfold k. rewrite <- Hrows.
    apply getitem_head_count; [done|]. by apply getitem_take_rows.
Qed.

Lemma sub_values_omap (x y : list (option Q)) (indexer : list nat) :
  length x = length y →
  Forall (λ i, i < length x) indexer →
  pd.sub_values (omap (x !!.) indexer) (omap (y !!.) indexer)
  = omap (pd.sub_values x y !!.) indexer.
Proof.
  intros Hlen. unfold pd.sub_values.
  set (f := λ p q : option Q, _).
  induction 1 as [|i indexer Hi _ IH]; [done|].
  destruct (lookup_lt_is_Some_2 x i Hi) as [a Ha].
  destruct (lookup_lt_is_Some_2 y i ltac:(by rewrite <- Hlen)) as [b Hb].
  assert (zip_with f x y !! i = Some (f a b)) as Hd
    by by rewrite lookup_zip_with, Ha, Hb.
  csimpl. rewrite Ha, Hb, Hd. csimpl. by rewrite IH.
Qed.

Lemma sub_values_take (x y : list (option Q)) k :
  pd.sub_values (take k x) (take k y) = take k (pd.sub_values x y).
Proof. unfold pd.sub_values. by rewrite zip_with_take. Qed.

Ltac example_hyp :=
  first [ by repeat constructor
        | apply (bool_decide_unpack _); by vm_compute
        | reflexivity
        | discriminate ].

(** ** The order of rows with equal differences *)






Section nargsort_stable.
Context (quicksort : argsort_impl) {A : Type} (ltb : A → A → bool).
Context (items : list (option A)).
Hypothesis ltb_strict_weak : strict_weak ltb.
Hypothesis quicksort_stable : stable quicksort.

Let nonnan : list (nat * A) :=
  omap (λ i, v ← items !! i ≫= id; Some (i, v)) (seq 0 (length items)).


End nargsort_stable.

(** Sorting by insertion, a position going in front of the positions
    of equal values to its right, is stable. *)
Lemma insert_pos_stable {A} (ltb : A → A → bool) (a : list A) i sorted :
  let ties_ascend_at (i j : nat) :=
    ∀ x y, a !! i = Some x → a !! j = Some y → ltb x y = false → i < j in
  Forall (λ j, i < j) sorted →
  StronglySorted ties_ascend_at sorted →
  StronglySorted ties_ascend_at (insert_pos true ltb a i sorted).
Proof.
  intros R Hlt Hsorted. induction Hsorted as [|j rest Hrest IH Hj]; simpl.
  { repeat constructor. }
  apply Forall_cons in Hlt as [Hij Hlt].
  destruct (goes_before _ _ _ _) eqn:Hgo.
  - constructor; [by constructor|].
    apply Forall_forall. intros k Hk x y _ _ _.
    apply elem_of_cons in Hk as [->|Hk]; [done|].
    rewrite Forall_forall in Hlt. by apply Hlt.
  - constructor; [by apply IH|].
    rewrite insert_pos_perm. constructor; [|done].
    intros x y Hx Hy Hxy. rewrite Hx, Hy in Hgo. simpl in Hgo.
    apply negb_false_iff in Hgo. congruence.
Qed.

Lemma stable_sort_stable : stable stable_sort.
Proof.
  intros A ltb a _. simpl. unfold insertion_argsort.
  assert (∀ start len,
            StronglySorted
              (λ i j, ∀ x y, a !! i = Some x → a !! j = Some y →
                             ltb x y = false → i < j)
              (foldr (insert_pos true ltb a) [] (seq start len))
            ∧ Forall (λ j, start ≤ j)
                (foldr (insert_pos true ltb a) [] (seq start len)))
    as Hall; [|apply Hall].
  intros start len. revert start.
  induction len as [|len IH]; intros start; simpl.
  { split; constructor. }
  destruct (IH (S start)) as [Hsorted Hge]. split.
  - apply insert_pos_stable; [|done].
    eapply Forall_impl; [exact Hge|]. simpl. lia.
  - rewrite insert_pos_perm. constructor; [lia|].
    eapply Forall_impl; [exact Hge|]. simpl. lia.
Qed.

(** ** The rows that extreme_rank_countries returns *)




(** ** Columns of the returned table *)

(** The columns of the returned table, in order: [cname], [rank_col1],
    the derived rank [rank_col2_calc] and [rank_difference]. When
    [rank_col1] is itself named [rank_difference], line 76 overwrites it
    in the working table and the table has three columns. *)
Theorem extreme_rank_countries_output_columns quicksort rank_col1 rank_col2
    top_n w given :
  NoDup (pd.columns (caller_df w)) →
  "cname" ∈ pd.columns (caller_df w) →
  rank_col2 ∈ pd.columns (caller_df w) →
  pd.getitem (caller_df w) rank_col1 = inr (pd.Series (pd.NumCol given)) →
  rank_col1 ≠ "cname" →
  rank_col1 ≠ "rank_col2_calc" →
  ∃ result,
    (extreme_rank_countries quicksort rank_col1 rank_col2 top_n w).1
      = inr result
    ∧ pd.columns result
      = if decide (rank_col1 = "rank_difference")
        then ["cname"; "rank_difference"; "rank_col2_calc"]
        else ["cname"; rank_col1; "rank_col2_calc"; "rank_difference"].
Proof.
  intros Hnodup Hcname Hr2 Hr1 Hne1 Hne2.
  destruct (getitem_present _ _ Hnodup Hr2) as (indicator & _ & Hind).
  destruct (getitem_present _ _ Hnodup Hcname) as (names & _ & Hnames).
  destruct (rank_length indicator) as (derived & Hrank & _).
  eexists. split.
  - by erewrite extreme_rank_countries_table.
  - by rewrite columns_head, columns_take_rows, columns_working_table.
Qed.

Lemma extreme_rank_countries_output_columns_witness :
  ∃ result,
    (extreme_rank_countries stable_sort "rank1" "rank2" 2 example_world).1
      = inr result
    ∧ pd.columns result
      = ["cname"; "rank1"; "rank_col2_calc"; "rank_difference"].
Proof.
  destruct (extreme_rank_countries_output_columns stable_sort "rank1" "rank2" 2
              example_world [Some 1; Some 2; Some 3]%Q)
    as (result & Hcall & Hcolumns); try example_hyp.
  exists result. split; [exact Hcall|]. exact Hcolumns.
Defined.

(** The rows of the returned table are rows of the dataset, kept whole:
    one permutation [order] of the rows rearranges the index, the country
    names, the given ranks and the derived ranks alike, and the table is
    the first [head_count top_n rows] rows of that arrangement. *)
Theorem extreme_rank_countries_rows_kept_whole quicksort rank_col1 rank_col2
    top_n w names given indicator :
  pd.wf (caller_df w) →
  NoDup (pd.columns (caller_df w)) →
  pd.getitem (caller_df w) "cname" = inr (pd.Series names) →
  pd.getitem (caller_df w) rank_col1 = inr (pd.Series (pd.NumCol given)) →
  pd.getitem (caller_df w) rank_col2 = inr (pd.Series indicator) →
  rank_col1 ≠ "cname" →
  rank_col1 ≠ "rank_col2_calc" →
  rank_col1 ≠ "rank_difference" →
  let rows := length (pd.index (caller_df w)) in
  let k := head_count top_n rows in
  ∃ result order,
    (extreme_rank_countries quicksort rank_col1 rank_col2 top_n w).1
      = inr result
    ∧ order ≡ₚ seq 0 rows
    ∧ pd.index result = take k (omap (pd.index (caller_df w) !!.) order)
    ∧ pd.getitem result "cname" = inr (pd.Series (pd.head_col k (pd.take_col names order)))
    ∧ pd.getitem result rank_col1
      = inr (pd.Series (pd.head_col k (pd.take_col (pd.NumCol given) order)))
    ∧ pd.getitem result "rank_col2_calc"
      = inr (pd.Series (pd.head_col k (pd.take_col (pd.rank indicator) order))).
Proof.
  intros Hwf Hnodup Hnames Hr1 Hind Hne1 Hne2 Hne3 rows k.
  destruct (rank_length indicator) as (derived & Hrank & _).
  destruct (extreme_rank_countries_result quicksort rank_col1 rank_col2 top_n w
              names given indicator derived)
    as (result & Hcall & Hperm & _ & Hindex & Hcols); try done.
  destruct (getitem_working_table (caller_df w) names rank_col1 given derived)
    as (Hc & Hd & _ & Hg); try done.
  exists result,
    (pd.nargsort quicksort Qltb (pd.sub_values given derived) false).
  split; [done|]. split; [done|]. split; [done|].
  rewrite Hrank. split; [|split].
  - by apply Hcols.
  - by apply Hcols, Hg.
  - by apply Hcols.
Qed.

Lemma extreme_rank_countries_rows_kept_whole_witness :
  ∃ result order,
    (extreme_rank_countries stable_sort "rank1" "rank2" 2 example_world).1
      = inr result
    ∧ order ≡ₚ [0; 1; 2]
    ∧ pd.index result = take 2 (omap ([0; 1; 2] !!.) order)
    ∧ pd.getitem result "cname"
      = inr (pd.Series (pd.head_col 2
               (pd.take_col (pd.StrCol [Some "A"; Some "B"; Some "C"]) order))).
Proof.
  destruct (extreme_rank_countries_rows_kept_whole stable_sort "rank1" "rank2" 2
              example_world (pd.StrCol [Some "A"; Some "B"; Some "C"])
              [Some 1; Some 2; Some 3]%Q
              (pd.NumCol [Some 30; Some 10; Some 20]%Q))
    as (result & order & Hcall & Hperm & Hindex & Hcname & _); try example_hyp.
  exists result, order. split; [exact Hcall|]. split; [exact Hperm|].
  split; [exact Hindex|exact Hcname].
Defined.

(** In the returned table [rank_difference] is, row by row, the given
    rank minus the derived rank of that row. *)
Theorem extreme_rank_countries_difference_of_columns quicksort rank_col1
    rank_col2 top_n w given :
  pd.wf (caller_df w) →
  NoDup (pd.columns (caller_df w)) →
  "cname" ∈ pd.columns (caller_df w) →
  rank_col2 ∈ pd.columns (caller_df w) →
  pd.getitem (caller_df w) rank_col1 = inr (pd.Series (pd.NumCol given)) →
  rank_col1 ≠ "cname" →
  rank_col1 ≠ "rank_col2_calc" →
  rank_col1 ≠ "rank_difference" →
  ∃ result given' derived',
    (extreme_rank_countries quicksort rank_col1 rank_col2 top_n w).1
      = inr result
    ∧ pd.getitem result rank_col1 = inr (pd.Series (pd.NumCol given'))
    ∧ pd.getitem result "rank_col2_calc" = inr (pd.Series (pd.NumCol derived'))
    ∧ pd.getitem result "rank_difference"
      = inr (pd.Series (pd.NumCol (pd.sub_values given' derived'))).
Proof.
  intros Hwf Hnodup Hcname Hr2 Hr1 Hne1 Hne2 Hne3.
  destruct (getitem_present _ _ Hnodup Hr2) as (indicator & Hind_in & Hind).
  destruct (getitem_present _ _ Hnodup Hcname) as (names & _ & Hnames).
  destruct (rank_length indicator) as (derived & Hrank & Hderived).
  rewrite (wf_elem_of _ _ _ Hwf Hind_in) in Hderived.
  pose proof (wf_elem_of _ _ _ Hwf (getitem_inr_elem_of _ _ _ Hr1)) as Hgiven.
  simpl in Hgiven.
  destruct (extreme_rank_countries_result quicksort rank_col1 rank_col2 top_n w
              names given indicator derived)
    as (result & Hcall & Hperm & _ & _ & Hcols); try done.
  destruct (getitem_working_table (caller_df w) names rank_col1 given derived)
    as (_ & Hd & Hdiff & Hg); try done.
  eexists result, _, _. split; [done|].
  split; [exact (Hcols _ _ (Hg Hne3))|]. split; [exact (Hcols _ _ Hd)|].
  rewrite (Hcols _ _ Hdiff). simpl.
  rewrite sub_values_take, sub_values_omap; [done|congruence|].
  rewrite Hperm, Hgiven. apply Forall_forall. intros i Hi%elem_of_seq. lia.
Qed.

Lemma extreme_rank_countries_difference_of_columns_witness :
  ∃ result given' derived',
    (extreme_rank_countries stable_sort "rank1" "rank2" 2 example_world).1
      = inr result
    ∧ pd.getitem result "rank1" = inr (pd.Series (pd.NumCol given'))
    ∧ pd.getitem result "rank_col2_calc" = inr (pd.Series (pd.NumCol derived'))
    ∧ pd.getitem result "rank_difference"
      = inr (pd.Series (pd.NumCol (pd.sub_values given' derived'))).
Proof.
  apply (extreme_rank_countries_difference_of_columns stable_sort "rank1"
           "rank2" 2 example_world [Some 1; Some 2; Some 3]%Q);
    example_hyp.
Defined.

Lemma omap_lookup_all {A} (l : list A) (p : list nat) :
  p ≡ₚ seq 0 (length l) → omap (l !!.) p ≡ₚ l.
Proof.
  intros Hperm.
  assert (omap (l !!.) p = omap (λ k, id <$> l !! k) p) as ->.
  { clear Hperm. induction p as [|k p IH]; [done|].
    csimpl. destruct (l !! k); csimpl; by rewrite IH. }
  rewrite omap_lookup_Permutation by done. by rewrite list_fmap_id.
Qed.

Lemma head_count_le n rows : head_count n rows ≤ rows.
Proof. unfold head_count. destruct (0 <=? n)%Z; lia. Qed.

(** [top_n] is passed to [head] as it is: the table has [top_n] rows, or
    all rows when there are fewer; none for [top_n = 0]; and for a
    negative [top_n] all rows of the sorted table but the last
    [-top_n]. No value of [top_n] makes the call fail. *)
Theorem extreme_rank_countries_row_count quicksort rank_col1 rank_col2 top_n w
    given :
  pd.wf (caller_df w) →
  NoDup (pd.columns (caller_df w)) →
  "cname" ∈ pd.columns (caller_df w) →
  rank_col2 ∈ pd.columns (caller_df w) →
  pd.getitem (caller_df w) rank_col1 = inr (pd.Series (pd.NumCol given)) →
  rank_col1 ≠ "cname" →
  rank_col1 ≠ "rank_col2_calc" →
  let rows := length (pd.index (caller_df w)) in
  ∃ result,
    (extreme_rank_countries quicksort rank_col1 rank_col2 top_n w).1
      = inr result
    ∧ length (pd.index result)
      = if (0 <=? top_n)%Z then Z.to_nat top_n `min` rows
        else rows - Z.to_nat (- top_n).
Proof.
  intros Hwf Hnodup Hcname Hr2 Hr1 Hne1 Hne2 rows.
  destruct (getitem_present _ _ Hnodup Hr2) as (indicator & _ & Hind).
  destruct (getitem_present _ _ Hnodup Hcname) as (names & _ & Hnames).
  destruct (rank_length indicator) as (derived & Hrank & _).
  destruct (extreme_rank_countries_result quicksort rank_col1 rank_col2 top_n w
              names given indicator derived)
    as (result & Hcall & Hperm & _ & Hindex & _); try done.
  exists result. split; [done|].
  rewrite Hindex, length_take, length_omap_lookup.
  - rewrite Hperm, length_seq. fold rows. fold (head_count top_n rows).
    pose proof (head_count_le top_n rows). lia.
  - rewrite Hperm. apply Forall_forall. intros i Hi%elem_of_seq. lia.
Qed.

Lemma extreme_rank_countries_row_count_witness :
  ∃ result,
    (extreme_rank_countries stable_sort "rank1" "rank2" (-1) example_world).1
      = inr result
    ∧ length (pd.index result) = 2.
Proof.
  apply (extreme_rank_countries_row_count stable_sort "rank1" "rank2" (-1)
           example_world [Some 1; Some 2; Some 3]%Q);
    example_hyp.
Defined.

(** With [top_n] at least the number of rows, every row of the dataset
    is returned, once. *)
Theorem extreme_rank_countries_all_rows quicksort rank_col1 rank_col2 top_n w
    given :
  pd.wf (caller_df w) →
  NoDup (pd.columns (caller_df w)) →
  "cname" ∈ pd.columns (caller_df w) →
  rank_col2 ∈ pd.columns (caller_df w) →
  pd.getitem (caller_df w) rank_col1 = inr (pd.Series (pd.NumCol given)) →
  rank_col1 ≠ "cname" →
  rank_col1 ≠ "rank_col2_calc" →
  (Z.of_nat (length (pd.index (caller_df w))) <= top_n)%Z →
  ∃ result,
    (extreme_rank_countries quicksort rank_col1 rank_col2 top_n w).1
      = inr result
    ∧ pd.index result ≡ₚ pd.index (caller_df w).
Proof.
  intros Hwf Hnodup Hcname Hr2 Hr1 Hne1 Hne2 Hall.
  destruct (getitem_present _ _ Hnodup Hr2) as (indicator & _ & Hind).
  destruct (getitem_present _ _ Hnodup Hcname) as (names & _ & Hnames).
  destruct (rank_length indicator) as (derived & Hrank & _).
  destruct (extreme_rank_countries_result quicksort rank_col1 rank_col2 top_n w
              names given indicator derived)
    as (result & Hcall & Hperm & _ & Hindex & _); try done.
  exists result. split; [done|].
  pose proof (omap_lookup_all (pd.index (caller_df w)) _ Hperm) as Hrows.
  rewrite Hindex, take_ge; [done|].
  rewrite Hrows. unfold head_count.
  rewrite (Zle_imp_le_bool 0 top_n) by lia. lia.
Qed.

Lemma extreme_rank_countries_all_rows_witness :
  ∃ result,
    (extreme_rank_countries stable_sort "rank1" "rank2" 5 example_world).1
      = inr result
    ∧ pd.index result ≡ₚ [0; 1; 2].
Proof.
  apply (extreme_rank_countries_all_rows stable_sort "rank1" "rank2" 5
           example_world [Some 1; Some 2; Some 3]%Q);
    example_hyp.
Defined.

(** When no two rows have the same [rank_difference], the call returns
    the same table whatever the sorting routine does with ties. *)
Theorem extreme_rank_countries_no_ties quicksort quicksort' rank_col1 rank_col2
    top_n w given indicator derived :
  NoDup (pd.columns (caller_df w)) →
  "cname" ∈ pd.columns (caller_df w) →
  pd.getitem (caller_df w) rank_col1 = inr (pd.Series (pd.NumCol given)) →
  pd.getitem (caller_df w) rank_col2 = inr (pd.Series indicator) →
  pd.rank indicator = pd.NumCol derived →
  rank_col1 ≠ "cname" →
  rank_col1 ≠ "rank_col2_calc" →
  no_ties Qltb (pd.sub_values given derived) →
  extreme_rank_countries quicksort rank_col1 rank_col2 top_n w
  = extreme_rank_countries quicksort' rank_col1 rank_col2 top_n w.
Proof.
  intros Hnodup Hcname Hr1 Hind Hrank Hne1 Hne2 Hties.
  destruct (getitem_present _ _ Hnodup Hcname) as (names & _ & Hnames).
  rewrite !(extreme_rank_countries_table _ rank_col1 rank_col2 top_n w
              names given indicator derived) by done.
  by rewrite (nargsort_no_ties Qltb _ Qltb_strict_weak Hties
                quicksort quicksort').
Qed.

Lemma extreme_rank_countries_no_ties_witness :
  extreme_rank_countries tie_reversing_sort "rank1" "rank2" 2 example_world
  = extreme_rank_countries stable_sort "rank1" "rank2" 2 example_world.
Proof.
  apply (extreme_rank_countries_no_ties tie_reversing_sort stable_sort "rank1"
           "rank2" 2 example_world [Some 1; Some 2; Some 3]%Q
           (pd.NumCol [Some 30; Some 10; Some 20]%Q)
           [Some 1; Some 3; Some 2]%Q);
    try example_hyp.
  exact example_no_ties.
Defined.

(** ** Failures past the presence check, and repeated calls *)

(** The columns [cname] and [rank_col1] are not checked at the start: when
    one of them is missing the call fails at line 75 with a [KeyError]
    that lists the missing labels, and by then line 74 has assigned the
    derived rank into the caller's dataset. *)
Theorem extreme_rank_countries_missing_column quicksort rank_col1 rank_col2
    top_n w indicator :
  pd.getitem (caller_df w) rank_col2 = inr (pd.Series indicator) →
  ("cname" ∉ pd.columns (caller_df w))
  ∨ ((rank_col1 ∉ pd.columns (caller_df w)) ∧ rank_col1 ≠ "rank_col2_calc") →
  ∃ missing,
    extreme_rank_countries quicksort rank_col1 rank_col2 top_n w
    = (inl (KeyError missing),
       {| caller_df :=
            pd.setitem (caller_df w) "rank_col2_calc" (pd.rank indicator);
          stdout := stdout w |})
    ∧ ∀ k, k ∈ missing
           ↔ (k = "cname" ∨ k = rank_col1)
             ∧ (k ∉ pd.columns (caller_df w)) ∧ k ≠ "rank_col2_calc".
Proof.
  intros Hind Hmissing.
  set (df1 := pd.setitem (caller_df w) "rank_col2_calc" (pd.rank indicator)).
  set (missing := filter (λ k, k ∉ pd.columns df1)
                    ["cname"; rank_col1; "rank_col2_calc"]).
  assert (∀ k, k ∈ missing
               ↔ (k = "cname" ∨ k = rank_col1)
                 ∧ (k ∉ pd.columns (caller_df w)) ∧ k ≠ "rank_col2_calc")
    as Hchar.
  { intros k. unfold missing, df1.
    rewrite list_elem_of_filter, elem_of_columns_setitem, !elem_of_cons,
      elem_of_nil. tauto. }
  exists missing. split; [|done].
  unfold_call. rewrite bool_decide_false.
  2:{ intros Habsent. apply Habsent, list_elem_of_fmap.
      exists (rank_col2, indicator). split; [done|].
      by apply getitem_inr_elem_of. }
  rewrite Hind. cbn [pd.rank_selection pd.setitem_selection fst snd caller_df].
  unfold pd.getitem_list. fold df1. fold missing.
  destruct missing as [|k l] eqn:Hlist; [|done].
  exfalso. destruct Hmissing as [Hc|[Hr Hne]].
  - apply (elem_of_nil "cname"), Hchar. by split; [left|].
  - apply (elem_of_nil rank_col1), Hchar. by split; [right|].
Qed.

Lemma extreme_rank_countries_missing_column_witness :
  ∃ missing,
    extreme_rank_countries stable_sort "rank9" "rank2" 2 example_world
    = (inl (KeyError missing),
       {| caller_df :=
            pd.setitem example_df "rank_col2_calc"
              (pd.rank (pd.NumCol [Some 30; Some 10; Some 20]%Q));
          stdout := [] |})
    ∧ "rank9" ∈ missing.
Proof.
  destruct (extreme_rank_countries_missing_column stable_sort "rank9" "rank2" 2
              example_world (pd.NumCol [Some 30; Some 10; Some 20]%Q))
    as (missing & Hcall & Hchar).
  - reflexivity.
  - right. split; [|discriminate]. apply (bool_decide_unpack _). by vm_compute.
  - exists missing. split; [exact Hcall|]. apply Hchar.
    split; [by right|]. split; [|discriminate].
    apply (bool_decide_unpack _). by vm_compute.
Defined.

Lemma both_present_lookup {A B} (x : list (option A)) (y : list (option B))
    i a b :
  x !! i = Some (Some a) → y !! i = Some (Some b) →
  pd.both_present x y = true.
Proof.
  intros Hx Hy. unfold pd.both_present. apply existsb_exists.
  exists (Some a, Some b). split; [|done].
  apply list_elem_of_In, (list_elem_of_lookup_2 _ i).
  by rewrite lookup_zip_with, Hx, Hy.
Qed.

(** A [rank_col1] that holds strings is not caught before line 76: the
    subtraction raises a [TypeError], after line 74 has assigned the
    derived rank into the caller's dataset. The statement asks for a row
    [i] where a string meets a derived rank: pandas subtracts object
    columns on the rows where both operands are present, so that only
    such a row makes the subtraction fail. *)
Theorem extreme_rank_countries_non_numeric_rank quicksort rank_col1 rank_col2
    top_n w words indicator derived i s r :
  NoDup (pd.columns (caller_df w)) →
  "cname" ∈ pd.columns (caller_df w) →
  pd.getitem (caller_df w) rank_col1 = inr (pd.Series (pd.StrCol words)) →
  pd.getitem (caller_df w) rank_col2 = inr (pd.Series indicator) →
  pd.rank indicator = pd.NumCol derived →
  words !! i = Some (Some s) →
  derived !! i = Some (Some r) →
  rank_col1 ≠ "cname" →
  rank_col1 ≠ "rank_col2_calc" →
  extreme_rank_countries quicksort rank_col1 rank_col2 top_n w
  = (inl (TypeError "unsupported operand type(s) for -: 'str' and 'float'"),
     {| caller_df :=
          pd.setitem (caller_df w) "rank_col2_calc" (pd.NumCol derived);
        stdout := stdout w |}).
Proof.
  intros Hnodup Hcname Hr1 Hind Hrank Hword Hderived Hne1 Hne2.
  destruct (getitem_present _ _ Hnodup Hcname) as (names & _ & Hnames).
  set (df1 := pd.setitem (caller_df w) "rank_col2_calc" (pd.NumCol derived)).
  assert (pd.getitem_list df1 ["cname"; rank_col1; "rank_col2_calc"]
          = inr {| pd.index := pd.index df1;
                   pd.data := [("cname", names); (rank_col1, pd.StrCol words);
                               ("rank_col2_calc", pd.NumCol derived)] |})
    as Htemp.
  { apply getitem_list_three; unfold df1.
    - by rewrite getitem_setitem_ne.
    - by rewrite getitem_setitem_ne.
    - by rewrite getitem_setitem_eq. }
  unfold_call. rewrite bool_decide_false.
  2:{ intros Habsent. apply Habsent, list_elem_of_fmap.
      exists (rank_col2, indicator). split; [done|].
      by apply getitem_inr_elem_of. }
  rewrite Hind. cbn [pd.rank_selection pd.setitem_selection fst snd caller_df].
  rewrite Hrank. fold df1. rewrite Htemp. unfold pd.getitem. cbn [pd.data].
  rewrite filter_cons_False, filter_cons_True, filter_cons_False
    by (simpl; congruence).
  rewrite filter_nil. cbn [snd].
  rewrite filter_cons_False, filter_cons_False, filter_cons_True
    by (simpl; congruence).
  rewrite filter_nil. cbn [snd pd.sub_selection pd.sub]. unfold pd.sub_objects.
  by rewrite (both_present_lookup words derived i s r).
Qed.

Lemma extreme_rank_countries_non_numeric_rank_witness :
  extreme_rank_countries stable_sort "income" "rank2" 2
    {| caller_df := words_df; stdout := [] |}
  = (inl (TypeError "unsupported operand type(s) for -: 'str' and 'float'"),
     {| caller_df :=
          pd.setitem words_df "rank_col2_calc"
            (pd.NumCol [Some 1; Some 3; Some 2]%Q);
        stdout := [] |}).
Proof.
  apply (extreme_rank_countries_non_numeric_rank stable_sort "income" "rank2" 2
           {| caller_df := words_df; stdout := [] |}
           [Some "high"; Some "low"; None]
           (pd.NumCol [Some 30; Some 10; Some 20]%Q)
           [Some 1; Some 3; Some 2]%Q 0 "high" 1%Q);
    try reflexivity; example_hyp.
Defined.

(** A second call on the same object repeats the first: unless the
    indicator column is itself named [rank_col2_calc], the call made in
    the state the first call leaves has the same outcome and leaves the
    same state, the first call having failed or not. *)
Theorem extreme_rank_countries_second_call quicksort rank_col1 rank_col2
    top_n w :
  rank_col2 ≠ "rank_col2_calc" →
  extreme_rank_countries quicksort rank_col1 rank_col2 top_n
    (extreme_rank_countries quicksort rank_col1 rank_col2 top_n w).2
  = extreme_rank_countries quicksort rank_col1 rank_col2 top_n w.
Proof. apply extreme_rank_countries_repeat. Qed.

Lemma extreme_rank_countries_second_call_witness :
  extreme_rank_countries stable_sort "rank1" "rank2" 2
    (extreme_rank_countries stable_sort "rank1" "rank2" 2 example_world).2
  = extreme_rank_countries stable_sort "rank1" "rank2" 2 example_world.
Proof.
  apply (extreme_rank_countries_second_call stable_sort "rank1" "rank2" 2
           example_world). discriminate.
Defined.

(** ** The derived rank and the order of the values *)

Lemma countb_sum_le {A} (p q r : A → bool) (l : list A) :
  (∀ x, p x = true → r x = true) →
  (∀ x, q x = true → r x = true) →
  (∀ x, p x = true → q x = false) →
  countb p l + countb q l ≤ countb r l.
Proof.
  intros Hpr Hqr Hpq. induction l as [|x l IH]; simpl; [done|].
  destruct (p x) eqn:Hp, (q x) eqn:Hq; simpl.
  - by rewrite (Hpq x Hp) in Hq.
  - rewrite (Hpr x Hp). simpl. lia.
  - rewrite (Hqr x Hq). simpl. lia.
  - destruct (r x); simpl; lia.
Qed.

Lemma Qnat_lt m n : m < n → (Qnat m < Qnat n)%Q.
Proof. intros Hlt. unfold Qnat. rewrite <- Zlt_Qlt. lia. Qed.

Lemma Qnat_le m n : m ≤ n → (Qnat m <= Qnat n)%Q.
Proof. intros Hle. unfold Qnat. rewrite <- Zle_Qle. lia. Qed.

Lemma Qdouble_lt (x y : Q) : (2 * x < 2 * y)%Q → (x < y)%Q.
Proof. intros Hlt. by apply (Qmult_lt_l x y 2). Qed.

Lemma Qdouble_le (x y : Q) : (2 * x <= 2 * y)%Q → (x <= y)%Q.
Proof. intros Hle. by apply (Qmult_le_l x y 2). Qed.

(** The rank of a present value, doubled. *)
Lemma rank_double (present : list Q) (v : Q) :
  v ∈ present →
  (2 * pd.mean_positions (countb (Qltb v) present)
                         (countb (pd.tieb Qltb v) present)
   == Qnat (weight Qltb present v + 1))%Q
  ∧ 0 < countb (pd.tieb Qltb v) present.
Proof.
  intros Hin.
  assert (0 < countb (pd.tieb Qltb v) present) as Hties.
  { apply countb_elem_of with v; [done|].
    apply (tieb_refl Qltb (sw_asym _ Qltb_strict_weak)). }
  split; [|done]. rewrite mean_positions_double by done.
  unfold weight. f_equiv.
Qed.

(** A greater value has a smaller rank. *)
Lemma rank_decreasing (present : list Q) (v u : Q) :
  v ∈ present → u ∈ present → (u < v)%Q →
  (pd.mean_positions (countb (Qltb v) present)
                     (countb (pd.tieb Qltb v) present)
   < pd.mean_positions (countb (Qltb u) present)
                       (countb (pd.tieb Qltb u) present))%Q.
Proof.
  intros Hv Hu Huv.
  destruct (rank_double present v Hv) as [Hrv Hev].
  destruct (rank_double present u Hu) as [Hru Heu].
  apply Qdouble_lt. rewrite Hrv, Hru. apply Qnat_lt. unfold weight.
  pose proof (countb_sum_le (Qltb v) (pd.tieb Qltb v) (Qltb u) present) as Hle.
  cut (countb (Qltb v) present + countb (pd.tieb Qltb v) present
       ≤ countb (Qltb u) present); [lia|].
  apply Hle.
  - intros x Hx%Qltb_lt. apply Qltb_lt. by apply Qlt_trans with v.
  - intros x Hx. apply Qltb_lt. rewrite tieb_Qeq_bool in Hx.
    apply Qeq_bool_iff in Hx. by rewrite <- Hx.
  - intros x Hx. unfold pd.tieb. by rewrite Hx.
Qed.

(** Ranks lie between 1 and the number of ranked values. *)
Lemma rank_bounds (present : list Q) (v : Q) :
  v ∈ present →
  (1 <= pd.mean_positions (countb (Qltb v) present)
                          (countb (pd.tieb Qltb v) present)
   <= Qnat (length present))%Q.
Proof.
  intros Hv. destruct (rank_double present v Hv) as [Hrv Hev].
  pose proof (countb_disjoint (Qltb v) (pd.tieb Qltb v) present) as Hsum.
  specialize (Hsum ltac:(intros x Hx; unfold pd.tieb; by rewrite Hx)).
  split; apply Qdouble_le; rewrite Hrv.
  - change (2 * 1)%Q with (Qnat 2). apply Qnat_le. unfold weight. lia.
  - change 2%Q with (Qnat 2). rewrite <- Qnat_mul. apply Qnat_le.
    unfold weight. lia.
Qed.

(** The rank derived at line 74 follows the docstring's note (higher
    values receive lower ranks) also when values are missing: a missing
    indicator value has a missing rank; of two present values the greater
    has the strictly smaller rank; every rank lies between 1 and the
    number of present values. *)
Theorem derived_rank_orders_values quicksort rank_col1 rank_col2 top_n w
    (items : list (option Q)) :
  pd.getitem (caller_df w) rank_col2 = inr (pd.Series (pd.NumCol items)) →
  ∃ derived : list (option Q),
    caller_df (extreme_rank_countries quicksort rank_col1 rank_col2 top_n w).2
    = pd.setitem (caller_df w) "rank_col2_calc" (pd.NumCol derived)
    ∧ length derived = length items
    ∧ (∀ i, derived !! i = Some None ↔ items !! i = Some None)
    ∧ (∀ i j v u,
         items !! i = Some (Some v) → items !! j = Some (Some u) →
         (u < v)%Q →
         ∃ rv ru, derived !! i = Some (Some rv) ∧ derived !! j = Some (Some ru)
                  ∧ (rv < ru)%Q)
    ∧ (∀ i r, derived !! i = Some (Some r) →
              (1 <= r <= Qnat (length (omap id items)))%Q).
Proof.
  intros Hcol. exists (pd.rank_descending Qltb items).
  split; [by rewrite extreme_rank_countries_df, Hcol|].
  unfold pd.rank_descending. set (present := omap id items).
  assert (∀ i v, items !! i = Some (Some v) → v ∈ present) as Hpresent.
  { intros i v Hi. apply list_elem_of_omap. exists (Some v).
    split; [by eapply list_elem_of_lookup_2|done]. }
  split; [by rewrite length_fmap|]. split; [|split].
  - intros i. rewrite list_lookup_fmap.
    destruct (items !! i) as [[v|]|]; simpl; naive_solver.
  - intros i j v u Hi Hj Huv. rewrite !list_lookup_fmap, Hi, Hj. simpl.
    eexists _, _. split; [done|]. split; [done|].
    apply rank_decreasing; eauto.
  - intros i r. rewrite list_lookup_fmap.
    destruct (items !! i) as [[v|]|] eqn:Hi; simpl; intros [= <-].
    apply rank_bounds. eauto.
Qed.

Lemma derived_rank_orders_values_witness :
  ∃ derived : list (option Q),
    caller_df
      (extreme_rank_countries stable_sort "rank1" "rank2" 2
         {| caller_df := gaps_df; stdout := [] |}).2
    = pd.setitem gaps_df "rank_col2_calc" (pd.NumCol derived)
    ∧ length derived = 4
    ∧ derived !! 1 = Some None.
Proof.
  destruct (derived_rank_orders_values stable_sort "rank1" "rank2" 2
              {| caller_df := gaps_df; stdout := [] |}
              [Some 30; None; Some 20; Some 20]%Q eq_refl)
    as (derived & Hdf & Hlen & Hmissing & _).
  exists derived. split; [exact Hdf|]. split; [exact Hlen|].
  apply Hmissing. reflexivity.
Defined.

(** ** summary_statistics: failure and object columns *)

Lemma describe_nonempty quicksort (df : pd.DataFrame) :
  pd.data df ≠ [] → ∃ described, pd.describe quicksort df = inr described.
Proof.
  intros Hdata. unfold pd.describe.
  destruct (pd.data df) as [|c l]; [done|].
  destruct (filter _ (c :: l)); eauto.
Qed.

Lemma selected_nonempty (df : pd.DataFrame) (requested : list string) v :
  v ∈ requested → v ∈ pd.columns df →
  filter (λ v, v ∈ pd.columns df) requested
    ≫= (λ k, filter (λ c, c.1 = k) (pd.data df)) ≠ [].
Proof.
  intros Hv Hin Hnil.
  apply list_elem_of_fmap in Hin as ([k c] & -> & Hc).
  apply (elem_of_nil (k, c)). rewrite <- Hnil.
  apply list_elem_of_bind. exists k. split.
  - by apply list_elem_of_filter.
  - apply list_elem_of_filter. split; [|done].
    apply list_elem_of_fmap. by exists (k, c).
Qed.

(** [summary_statistics] raises exactly when no requested name is a
    column of the dataset (an empty request included), and then it is the
    [ValueError] of [describe] on a frame without columns; the selection
    of line 35 never raises a [KeyError], since line 34 keeps the names
    that are columns. *)
Theorem summary_statistics_raises_iff quicksort vars_of_interest w :
  ((∃ e, (summary_statistics quicksort vars_of_interest w).1 = inl e)
   ↔ Forall (λ v, v ∉ pd.columns (caller_df w)) vars_of_interest)
  ∧ ∀ e, (summary_statistics quicksort vars_of_interest w).1 = inl e →
         e = ValueError "Cannot describe a DataFrame without columns".
Proof.
  destruct (decide (Forall (λ v, v ∉ pd.columns (caller_df w))
                      vars_of_interest)) as [Hnone|Hsome].
  - pose proof (summary_statistics_nothing_present quicksort _ w Hnone) as Hcall.
    rewrite Hcall. split; [split; eauto|]. by intros e [= <-].
  - apply not_Forall_Exists in Hsome; [|apply _].
    apply Exists_exists in Hsome as (v & Hv & Hin%dec_stable).
    rewrite summary_statistics_result, getitem_list_available.
    destruct (describe_nonempty quicksort
                {| pd.index := pd.index (caller_df w);
                   pd.data := filter (λ v, v ∈ pd.columns (caller_df w))
                                vars_of_interest
                              ≫= λ k, filter (λ c, c.1 = k)
                                        (pd.data (caller_df w)) |})
      as [described ->]; [by eapply selected_nonempty|].
    split; [split|]; [by intros [e ?]| |done].
    intros Hnone. exfalso. rewrite Forall_forall in Hnone. by apply (Hnone v).
Qed.

(** The requested names that are columns, each with its column. *)
Lemma selected_labels (df : pd.DataFrame) (requested : list string) :
  NoDup (pd.columns df) →
  (filter (λ v, v ∈ pd.columns df) requested
     ≫= λ k, filter (λ c, c.1 = k) (pd.data df)).*1
  = filter (λ v, v ∈ pd.columns df) requested.
Proof.
  intros Hnodup. induction requested as [|v l IH]; [done|].
  rewrite filter_cons. destruct (decide (v ∈ pd.columns df)) as [Hin|Hout].
  - destruct (getitem_present df v Hnodup Hin) as (c & Hc & Hget).
    by rewrite bind_cons, (getitem_inr_filter _ _ _ Hget), fmap_app, IH.
  - exact IH.
Qed.

Lemma selected_elem_of (df : pd.DataFrame) (requested : list string) x :
  x ∈ filter (λ v, v ∈ pd.columns df) requested
        ≫= (λ k, filter (λ c, c.1 = k) (pd.data df)) →
  x.1 ∈ requested ∧ x ∈ pd.data df.
Proof.
  intros (k & Hx & Hk)%list_elem_of_bind.
  apply list_elem_of_filter in Hx as [-> Hx].
  by apply list_elem_of_filter in Hk as [_ Hk].
Qed.

Lemma describe_object_columns quicksort (df : pd.DataFrame) :
  pd.data df ≠ [] →
  filter (λ c, pd.is_numeric c.2) (pd.data df) = [] →
  pd.describe quicksort df
  = inr {| pd.sindex := pd.object_measures;
           pd.sdata := prod_map id (pd.describe_1d quicksort) <$> pd.data df |}.
Proof.
  intros Hdata Hnumeric. unfold pd.describe.
  destruct (pd.data df) as [|c l]; [done|]. by rewrite Hnumeric.
Qed.

(** When none of the requested columns is numeric, and one at least is
    present, the table has a row for every requested name that is a
    column, in the order of the request, and its columns are the four
    measures of an object column: count, unique, top, freq. *)
Theorem summary_statistics_object_columns quicksort vars_of_interest w :
  NoDup (pd.columns (caller_df w)) →
  (∃ v, v ∈ vars_of_interest ∧ v ∈ pd.columns (caller_df w)) →
  Forall (λ v, numeric_column (caller_df w) v = false) vars_of_interest →
  ∃ table,
    (summary_statistics quicksort vars_of_interest w).1 = inr table
    ∧ pd.sindex table
      = filter (λ v, v ∈ pd.columns (caller_df w)) vars_of_interest
    ∧ (pd.sdata table).*1 = ["count"; "unique"; "top"; "freq"]
    ∧ ∀ r v, pd.sindex table !! r = Some v →
        ∃ words,
          pd.getitem (caller_df w) v = inr (pd.Series (pd.StrCol words))
          ∧ (λ col : string * list pd.stat, col.2 !! r) <$> pd.sdata table
            = Some <$> pd.describe_object quicksort words.
Proof.
  intros Hnodup (v0 & Hv0 & Hin0) Hobject.
  rewrite summary_statistics_result, getitem_list_available.
  pose proof (selected_labels (caller_df w) vars_of_interest Hnodup) as Hlabels.
  pose proof (selected_nonempty (caller_df w) vars_of_interest v0 Hv0 Hin0)
    as Hnonempty.
  pose proof (selected_elem_of (caller_df w) vars_of_interest) as Hselected.
  set (selected := filter (λ v, v ∈ pd.columns (caller_df w)) vars_of_interest
                   ≫= λ k, filter (λ c, c.1 = k) (pd.data (caller_df w)))
    in *.
  assert (∀ v c, (v, c) ∈ selected →
                 ∃ words, c = pd.StrCol words
                          ∧ pd.getitem (caller_df w) v = inr (pd.Series c)) as Hwords.
  { intros v c [Hv Hc]%Hselected. simpl in Hv.
    pose proof (getitem_elem_of _ _ _ Hnodup Hc) as Hget.
    rewrite Forall_forall in Hobject. specialize (Hobject v Hv).
    unfold numeric_column in Hobject. rewrite Hget in Hobject.
    destruct c as [vals|words]; [done|]. by exists words. }
  rewrite describe_object_columns; simpl pd.data; [|done|].
  2:{ apply filter_nil_Forall, Forall_forall. intros [v c] Hc.
      destruct (Hwords v c Hc) as (words & -> & _). by intros []. }
  eexists. split; [done|]. split; [|split].
  - unfold pd.T. simpl pd.sindex. simpl pd.sdata.
    by rewrite <- Hlabels, <- list_fmap_compose.
  - by rewrite T_measures.
  - intros r v Hr. unfold pd.T in Hr. simpl pd.sindex in Hr. simpl pd.sdata in Hr.
    rewrite <- list_fmap_compose, list_lookup_fmap in Hr.
    destruct (selected !! r) as [[v' c]|] eqn:Hc; simplify_eq/=.
    destruct (Hwords v c) as (words & -> & Hget);
      [by eapply list_elem_of_lookup_2|].
    exists words. split; [done|].
    unfold pd.T, pd.object_measures. simpl.
    rewrite !list_lookup_fmap, Hc. done.
Qed.

Lemma summary_statistics_object_columns_witness :
  ∃ table,
    (summary_statistics stable_sort ["z"; "cname"] example_world).1 = inr table
    ∧ pd.sindex table = ["cname"]
    ∧ (pd.sdata table).*1 = ["count"; "unique"; "top"; "freq"].
Proof.
  destruct (summary_statistics_object_columns stable_sort ["z"; "cname"]
              example_world)
    as (table & Hcall & Hrows & Hmeasures & _).
  - example_hyp.
  - exists "cname". split; [by right; left|example_hyp].
  - by repeat constructor.
  - exists table. split; [exact Hcall|]. split; [|exact Hmeasures].
    rewrite Hrows. by vm_compute.
Defined.

(** The [count] measure of a numeric column's row is the number of its
    values that are not missing. *)
Theorem summary_statistics_count quicksort vars_of_interest w :
  NoDup (pd.columns (caller_df w)) →
  (∃ v, v ∈ vars_of_interest ∧ numeric_column (caller_df w) v) →
  ∃ table counts,
    (summary_statistics quicksort vars_of_interest w).1 = inr table
    ∧ pd.sdata table !! 0 = Some ("count", counts)
    ∧ length counts = length (pd.sindex table)
    ∧ ∀ r v vals,
        pd.sindex table !! r = Some v →
        pd.getitem (caller_df w) v = inr (pd.Series (pd.NumCol vals)) →
        counts !! r = Some (pd.Num (Qnat (length (omap id vals)))).
Proof.
  intros Hnodup (v0 & Hv0 & Hnum0).
  rewrite summary_statistics_result, getitem_list_available.
  pose proof (selected_numeric_labels (caller_df w) vars_of_interest Hnodup)
    as Hlabels.
  pose proof (selected_elem_of (caller_df w) vars_of_interest) as Hselected.
  set (selected := filter (λ v, v ∈ pd.columns (caller_df w)) vars_of_interest
                   ≫= λ k, filter (λ c, c.1 = k) (pd.data (caller_df w)))
    in *.
  rewrite describe_numeric_columns; simpl pd.data.
  2:{ intros Hnil.
      assert (v0 ∈ filter (λ v, numeric_column (caller_df w) v) vars_of_interest)
        as Hin by by apply list_elem_of_filter.
      rewrite <- Hlabels, Hnil in Hin. by apply elem_of_nil in Hin. }
  set (numeric := filter (λ c, pd.is_numeric c.2) selected) in *.
  eexists _, _. split; [done|]. split; [done|]. split.
  - unfold pd.T. simpl pd.sindex. simpl pd.sdata. by rewrite !length_fmap.
  - intros r v vals Hr Hget. unfold pd.T in Hr.
    simpl pd.sindex in Hr. simpl pd.sdata in Hr.
    rewrite <- list_fmap_compose, list_lookup_fmap in Hr.
    destruct (numeric !! r) as [[v' c]|] eqn:Hc; simplify_eq/=.
    assert ((v, c) ∈ numeric) as Hin by by eapply list_elem_of_lookup_2.
    apply list_elem_of_filter in Hin as [_ [_ Hin]%Hselected].
    rewrite (getitem_elem_of _ _ _ Hnodup Hin) in Hget. injection Hget as ->.
    by rewrite !list_lookup_fmap, Hc.
Qed.

Lemma summary_statistics_count_witness :
  ∃ table counts,
    (summary_statistics stable_sort ["rank2"]
       {| caller_df := gaps_df; stdout := [] |}).1 = inr table
    ∧ pd.sdata table !! 0 = Some ("count", counts)
    ∧ counts !! 0 = Some (pd.Num 3).
Proof.
  destruct (summary_statistics_count stable_sort ["rank2"]
              {| caller_df := gaps_df; stdout := [] |})
    as (table & counts & Hcall & Hcount & _ & Hcounts).
  - example_hyp.
  - exists "rank2". split; [left|by vm_compute].
  - exists table, counts. split; [exact Hcall|]. split; [exact Hcount|].
    apply (Hcounts 0 "rank2" [Some 30; None; Some 20; Some 20]%Q).
    + injection Hcall as <-. reflexivity.
    + reflexivity.
Defined.
